(** * express-basics: the example servers and their HTTP-semantics lessons

    A shallow embedding of the request handlers and middleware of the
    repository, and the properties its notes state about them.

    Layout:
    - [JS]: the fragment of the JavaScript runtime the handlers use
      (IEEE-754 numbers, [Number], [isNaN], truthiness, string and array
      methods);
    - the Express/Node response object as a log of calls, and the handler
      monad threading the request, the response and the module-level arrays;
    - one module per source file with its handlers;
    - the properties.

    Strings are sequences of 8-bit characters, read as the UTF-16 code units
    U+0000..U+00FF.  [console.log] output is not part of the model. *)

From Stdlib Require Import ZArith Ascii String List Bool Lia.
From Stdlib Require Import Floats.SpecFloat.
From stdpp Require Import base gmap strings list.
Import ListNotations.
Open Scope Z_scope.
Set Warnings "-register-all".

(** The double-quote character, for the HTML snippets that contain it. *)
Definition dq : string := String (ascii_of_nat 34) EmptyString.

(* ================================================================== *)
(** * The JavaScript runtime fragment *)
(* ================================================================== *)

Module JS.

(** ** Numbers: IEEE-754 binary64 *)

Definition number : Type := spec_float.

Definition prec : Z := 53.
Definition emax : Z := 1024.

Definition NaN : number := S754_nan.
Definition Infinity (neg : bool) : number := S754_infinity neg.

(** The Number value of an integer (round to nearest, ties to even). *)
Definition of_Z (z : Z) : number := binary_normalize prec emax z 0 false.

(** The Number value of the ratio [n / d]. *)
Definition of_ratio (neg : bool) (n d : positive) : number :=
  let '(q, e, l) := SFdiv_core_binary prec emax (Zpos n) 0 (Zpos d) 0 in
  binary_round_aux prec emax neg q e l.

(** The Number value of the mathematical value [m * 10^e], [m >= 0]. *)
Definition of_decimal (neg : bool) (m e : Z) : number :=
  match m with
  | Zpos p =>
      if 0 <=? e
      then binary_normalize prec emax
             (if neg then - (m * 10 ^ e) else m * 10 ^ e) 0 neg
      else of_ratio neg p (Z.to_pos (10 ^ (- e)))
  | _ => S754_zero neg
  end.

(** [isNaN] on a number. *)
Definition isNaN (x : number) : bool :=
  match x with S754_nan => true | _ => false end.

(** [x === y] on numbers: NaN equals nothing, [+0 === -0]. *)
Definition strict_eq (x y : number) : bool := SFeqb x y.

(** [x > y] on numbers. *)
Definition gt (x y : number) : bool := SFltb y x.

Definition zero : number := S754_zero false.

(** ToIntegerOrInfinity. *)
Inductive integer_or_infinity :=
| NegInfinity
| Integer (z : Z)
| PosInfinity.

Definition ToIntegerOrInfinity (x : number) : integer_or_infinity :=
  match x with
  | S754_nan => Integer 0
  | S754_zero _ => Integer 0
  | S754_infinity false => PosInfinity
  | S754_infinity true => NegInfinity
  | S754_finite s m e =>
      let mag := if 0 <=? e then Zpos m * 2 ^ e else Zpos m / 2 ^ (- e) in
      Integer (if s then - mag else mag)
  end.

(** ** StringToNumber: the StringNumericLiteral grammar *)

Definition code (c : ascii) : Z := Z.of_N (N_of_ascii c).

(** StrWhiteSpaceChar within U+0000..U+00FF: TAB, LF, VT, FF, CR, SP, NBSP. *)
Definition is_whitespace (c : ascii) : bool :=
  let n := code c in
  ((9 <=? n) && (n <=? 13)) || (n =? 32) || (n =? 160).

Fixpoint drop_whitespace (l : list ascii) : list ascii :=
  match l with
  | c :: l' => if is_whitespace c then drop_whitespace l' else l
  | [] => []
  end.

Definition trim (l : list ascii) : list ascii :=
  rev (drop_whitespace (rev (drop_whitespace l))).

(** The value of a digit in the given radix (2, 8, 10 or 16). *)
Definition digit_of (radix : Z) (c : ascii) : option Z :=
  let n := code c in
  let v :=
    if (48 <=? n) && (n <=? 57) then Some (n - 48)
    else if (97 <=? n) && (n <=? 102) then Some (n - 87)
    else if (65 <=? n) && (n <=? 70) then Some (n - 55)
    else None in
  match v with
  | Some d => if d <? radix then Some d else None
  | None => None
  end.

(** The longest prefix of decimal digits, as its value and length, and the
    rest of the input. *)
Fixpoint span_digits (acc : Z) (len : Z) (l : list ascii)
  : Z * Z * list ascii :=
  match l with
  | c :: l' =>
      match digit_of 10 c with
      | Some d => span_digits (10 * acc + d) (len + 1) l'
      | None => (acc, len, l)
      end
  | [] => (acc, len, [])
  end.

(** A whole string of digits in the given radix. *)
Fixpoint radix_value (radix : Z) (acc : Z) (l : list ascii) : option Z :=
  match l with
  | [] => Some acc
  | c :: l' =>
      match digit_of radix c with
      | Some d => radix_value radix (radix * acc + d) l'
      | None => None
      end
  end.

(** NonDecimalIntegerLiteral: 0x / 0o / 0b and at least one digit. *)
Definition parse_non_decimal (l : list ascii) : option Z :=
  match l with
  | z :: r :: d :: ds =>
      if code z =? 48 then
        let n := code r in
        if (n =? 120) || (n =? 88) then radix_value 16 0 (d :: ds)
        else if (n =? 111) || (n =? 79) then radix_value 8 0 (d :: ds)
        else if (n =? 98) || (n =? 66) then radix_value 2 0 (d :: ds)
        else None
      else None
  | _ => None
  end.

(** An optional sign. *)
Definition parse_sign (l : list ascii) : bool * list ascii :=
  match l with
  | c :: l' =>
      if code c =? 45 then (true, l')
      else if code c =? 43 then (false, l')
      else (false, l)
  | [] => (false, [])
  end.

(** ExponentPart (optional), up to the end of the input. *)
Definition parse_exponent (l : list ascii) : option Z :=
  match l with
  | [] => Some 0
  | c :: r =>
      if (code c =? 101) || (code c =? 69) then
        let '(neg, r') := parse_sign r in
        let '(v, len, rest) := span_digits 0 0 r' in
        match rest with
        | [] => if 0 <? len then Some (if neg then - v else v) else None
        | _ :: _ => None
        end
      else None
  end.

(** StrUnsignedDecimalLiteral without [Infinity]: mantissa and decimal
    exponent of the mathematical value. *)
Definition parse_unsigned_decimal (l : list ascii) : option (Z * Z) :=
  let '(ip, ilen, r1) := span_digits 0 0 l in
  match r1 with
  | c :: r2 =>
      if code c =? 46 then
        let '(m, flen, r3) := span_digits ip 0 r2 in
        if (ilen =? 0) && (flen =? 0) then None
        else match parse_exponent r3 with
             | Some e => Some (m, e - flen)
             | None => None
             end
      else if ilen =? 0 then None
      else match parse_exponent r1 with
           | Some e => Some (ip, e)
           | None => None
           end
  | [] => if ilen =? 0 then None else Some (ip, 0)
  end.

Definition Infinity_literal : list ascii :=
  list_ascii_of_string "Infinity".

Definition chars_eqb (a b : list ascii) : bool :=
  String.eqb (string_of_list_ascii a) (string_of_list_ascii b).

(** [Number(s)] for a string [s]. *)
Definition Number (s : string) : number :=
  match trim (list_ascii_of_string s) with
  | [] => S754_zero false
  | l =>
      match parse_non_decimal l with
      | Some z => of_Z z
      | None =>
          let '(neg, r) := parse_sign l in
          if chars_eqb r Infinity_literal then Infinity neg
          else match parse_unsigned_decimal r with
               | Some (m, e) => of_decimal neg m e
               | None => NaN
               end
      end
  end.

(** [Number(undefined)] is NaN. *)
Definition Number_opt (o : option string) : number :=
  match o with
  | Some s => Number s
  | None => NaN
  end.

(** ** Strings *)

(** Truthiness of a string. *)
Definition nonempty (s : string) : bool :=
  match s with EmptyString => false | String _ _ => true end.

(** [String.prototype.toLowerCase] on U+0000..U+00FF: A-Z, and the Latin-1
    capitals U+00C0..U+00DE except the multiplication sign U+00D7. *)
Definition lower_char (c : ascii) : ascii :=
  let n := code c in
  if ((65 <=? n) && (n <=? 90))
     || ((192 <=? n) && (n <=? 222) && negb (n =? 215))
  then ascii_of_N (Z.to_N (n + 32))
  else c.

Fixpoint toLowerCase (s : string) : string :=
  match s with
  | EmptyString => EmptyString
  | String c s' => String (lower_char c) (toLowerCase s')
  end.

(** Two characters that are the same letter, in either case. *)
Definition same_letter (a b : ascii) : Prop :=
  a = b \/ lower_char a = b \/ a = lower_char b.

(** Two strings that differ only in letter case. *)
Inductive differ_only_in_case : string -> string -> Prop :=
| case_empty : differ_only_in_case EmptyString EmptyString
| case_char a b s t :
    same_letter a b -> differ_only_in_case s t ->
    differ_only_in_case (String a s) (String b t).

(** [s.includes(t)]: [t] occurs in [s] as a substring. *)
Fixpoint includes (s t : string) : bool :=
  String.prefix t s
  || match s with
     | EmptyString => false
     | String _ s' => includes s' t
     end.

(** [Array.prototype.join(",")] on an array of strings. *)
Fixpoint join_comma (l : list string) : string :=
  match l with
  | [] => EmptyString
  | [s] => s
  | s :: l' => s +:+ "," +:+ join_comma l'
  end.

(** ** Arrays *)

(** [arr.slice(0, end)] with a numeric [end]. *)
Definition slice0 {A : Type} (arr : list A) (end_ : number) : list A :=
  let len := Z.of_nat (length arr) in
  let final :=
    match ToIntegerOrInfinity end_ with
    | NegInfinity => 0
    | PosInfinity => len
    | Integer r => if r <? 0 then Z.max (len + r) 0 else Z.min r len
    end in
  firstn (Z.to_nat final) arr.

(** ** JSON-like values *)

Inductive value :=
| VUndefined
| VNull
| VBool (b : bool)
| VNum (n : number)
| VStr (s : string)
| VArr (items : list value)
| VObj (fields : list (string * value)).

(** ToBoolean. *)
Definition truthy (v : value) : bool :=
  match v with
  | VUndefined | VNull => false
  | VBool b => b
  | VNum n =>
      match n with
      | S754_nan | S754_zero _ => false
      | _ => true
      end
  | VStr s => nonempty s
  | VArr _ | VObj _ => true
  end.

(** Property lookup in a list of fields. *)
Fixpoint field (k : string) (fs : list (string * value)) : value :=
  match fs with
  | [] => VUndefined
  | (k', v) :: fs' => if String.eqb k k' then v else field k fs'
  end.

(** A value of [req.query]: a string, or an array of strings when the key
    is repeated. *)
Inductive qvalue :=
| QStr (s : string)
| QArr (l : list string).

(** Truthiness of [req.query.key]; [None] is [undefined]. *)
Definition qtruthy (o : option qvalue) : bool :=
  match o with
  | None => false
  | Some (QStr s) => nonempty s
  | Some (QArr _) => true
  end.

(** ToString of a query value. *)
Definition qstring (q : qvalue) : string :=
  match q with
  | QStr s => s
  | QArr l => join_comma l
  end.

Definition qjson (q : qvalue) : value :=
  match q with
  | QStr s => VStr s
  | QArr l => VArr (map VStr l)
  end.

(** ToString of [req.query.key]. *)
Definition ToString_q (o : option qvalue) : string :=
  match o with
  | None => "undefined"
  | Some q => qstring q
  end.

(** [v.name] for a parsed body [v]: [None] when [v] is [undefined] or
    [null] (reading the property throws a TypeError). *)
Definition name_of (v : value) : option value :=
  match v with
  | VUndefined | VNull => None
  | VObj fs => Some (field "name" fs)
  | VBool _ | VNum _ | VStr _ | VArr _ => Some VUndefined
  end.

(** A string or [undefined] as a value. *)
Definition opt_str (o : option string) : value :=
  match o with
  | Some s => VStr s
  | None => VUndefined
  end.

(** [Number(req.query.key)]. *)
Definition Number_q (o : option qvalue) : number :=
  match o with
  | None => NaN
  | Some q => Number (qstring q)
  end.

End JS.

(* ================================================================== *)
(** * Data, requests and responses *)
(* ================================================================== *)

(** Modelled from the spec: [data.js] (the two hard-coded collections) is
    not part of the sources.  A product record has a numeric id, a name and
    price/image fields (the listing route drops [desc] and [price]); a
    person record has a numeric id and a name. *)
Record product := {
  product_id : JS.number;
  product_name : string;
  product_image : string;
  product_price : JS.number;
  product_desc : string
}.

Record person := {
  person_id : JS.number;
  person_name : string
}.

Definition product_json (p : product) : JS.value :=
  JS.VObj [("id", JS.VNum (product_id p)); ("name", JS.VStr (product_name p));
           ("image", JS.VStr (product_image p));
           ("price", JS.VNum (product_price p));
           ("desc", JS.VStr (product_desc p))].

Definition person_json (p : person) : JS.value :=
  JS.VObj [("id", JS.VNum (person_id p)); ("name", JS.VStr (person_name p))].

(** The request object.  [user] is the property the authorize middleware
    attaches; [body] is [VUndefined] when no body parser filled it. *)
Record request := {
  method : string;
  url : string;
  params : gmap string string;
  query : gmap string JS.qvalue;
  body : JS.value;
  user : JS.value
}.

(** A template literal: literal text and interpolated values. *)
Inductive fragment :=
| Lit (s : string)
| Interp (v : JS.value).

(** What a response call is given to send. *)
Inductive content :=
| Text (s : string)
| Template (fs : list fragment)
| Data (v : JS.value)
| FileAt (path : string)
| Chunks (cs : list string).

(** The calls made on the response object, in order. *)
Inductive call :=
| Status (code : Z)                         (* res.status(code) *)
| Send (c : content)                        (* res.send(c) *)
| Json (v : JS.value)                       (* res.json(v) *)
| SendFile (path : string)                  (* res.sendFile(path) *)
| WriteHead (code : Z) (contentType : string) (* res.writeHead(code, {..}) *)
| Write (chunk : string)                    (* res.write(chunk) *)
| End.                                      (* res.end() *)

(** Calls that complete the response. *)
Definition completes (c : call) : bool :=
  match c with
  | Send _ | Json _ | SendFile _ | End => true
  | Status _ | WriteHead _ _ | Write _ => false
  end.

(** Calls that put something on the wire. *)
Definition is_response_call (c : call) : bool :=
  match c with
  | Status _ => false
  | _ => true
  end.

Definition headers_sent (tr : list call) : bool := existsb is_response_call tr.

Definition completed (tr : list call) : bool := existsb completes tr.

(** The single-response discipline on a log: once a call has completed the
    response, no further response call is made. *)
Fixpoint single_response (tr : list call) : bool :=
  match tr with
  | [] => true
  | c :: tr' =>
      if completes c then negb (headers_sent tr') else single_response tr'
  end.

(** Number of calls that complete a response. *)
Definition responses (tr : list call) : nat :=
  length (List.filter completes tr).

(** The response put on the wire: status code and content of the first
    completing call. *)
Fixpoint response_from (status : Z) (chunks : list string) (tr : list call)
  : option (Z * content) :=
  match tr with
  | [] => None
  | Status c :: tr' => response_from c chunks tr'
  | WriteHead c _ :: tr' => response_from c chunks tr'
  | Write ch :: tr' => response_from status (chunks ++ [ch]) tr'
  | Send c :: _ => Some (status, c)
  | Json v :: _ => Some (status, Data v)
  | SendFile p :: _ => Some (status, FileAt p)
  | End :: _ => Some (status, Chunks chunks)
  end.

Definition response_of (tr : list call) : option (Z * content) :=
  response_from 200 [] tr.

Definition status_of (tr : list call) : option Z :=
  match response_of tr with
  | Some (s, _) => Some s
  | None => None
  end.

(** ** The handler monad *)

(** What a handler can see and change: the module-level arrays, the request
    object and the log of the response object. *)
Record world := {
  products : list product;
  people : list person;
  req : request;
  res : list call
}.

Inductive js_error :=
| TypeError (msg : string)
| RangeError (msg : string)
| ERR_HTTP_HEADERS_SENT.

Inductive outcome (A : Type) :=
| Return (a : A)
| Throw (e : js_error).
Arguments Return {A} a.
Arguments Throw {A} e.

Definition M (A : Type) : Type := world -> outcome A * world.

Definition ret {A : Type} (a : A) : M A := fun w => (Return a, w).

Definition bind {A B : Type} (m : M A) (k : A -> M B) : M B :=
  fun w =>
    match m w with
    | (Return a, w') => k a w'
    | (Throw e, w') => (Throw e, w')
    end.

Definition throw {A : Type} (e : js_error) : M A := fun w => (Throw e, w).

(** A computation that touches nothing: it returns or throws. *)
Definition lift {A : Type} (o : outcome A) : M A := fun w => (o, w).

Declare Scope handler_scope.
Delimit Scope handler_scope with handler.
Notation "'let!' x ':=' m 'in' k" := (bind m (fun x => k))
  (at level 10, x name, m at level 100, k at level 200) : handler_scope.
Notation "m1 >> m2" := (bind m1 (fun _ => m2))
  (at level 90, right associativity) : handler_scope.
Open Scope handler_scope.

Definition get_req : M request := fun w => (Return (req w), w).
Definition get_products : M (list product) := fun w => (Return (products w), w).
Definition get_people : M (list person) := fun w => (Return (people w), w).

(** [req.user = v] *)
Definition set_user (v : JS.value) : M unit :=
  fun w =>
    let r := req w in
    (Return tt,
     {| products := products w; people := people w;
        req := {| method := method r; url := url r; params := params r;
                  query := query r; body := body r; user := v |};
        res := res w |}).

Definition log_call (c : call) (w : world) : world :=
  {| products := products w; people := people w; req := req w;
     res := res w ++ [c] |}.

(** [res.status(code)] for an integer [code]: sets the status code and
    sends nothing; a code outside 100..999 is refused with a RangeError
    (whose message also quotes the code) and nothing is set. *)
Definition res_status (code : Z) : M unit :=
  fun w =>
    if (100 <=? code) && (code <=? 999)
    then (Return tt, log_call (Status code) w)
    else (Throw (RangeError "Invalid status code"), w).

(** A call that sets headers: throws once the headers are out. *)
Definition header_call (c : call) : M unit :=
  fun w =>
    if headers_sent (res w)
    then (Throw ERR_HTTP_HEADERS_SENT, log_call c w)
    else (Return tt, log_call c w).

Definition res_send (c : content) : M unit := header_call (Send c).
Definition res_json (v : JS.value) : M unit := header_call (Json v).
Definition res_sendFile (path : string) : M unit := header_call (SendFile path).
Definition res_writeHead (code : Z) (contentType : string) : M unit :=
  header_call (WriteHead code contentType).
Definition res_write (chunk : string) : M unit :=
  fun w => (Return tt, log_call (Write chunk) w).
Definition res_end : M unit :=
  fun w => (Return tt, log_call End w).

(** The log a handler leaves. *)
Definition run (h : M unit) (w : world) : list call := res (snd (h w)).

(* ================================================================== *)
(** * The handlers, file by file *)
(* ================================================================== *)

(** ** 01-http-basics.js: the bare [http] server *)
Module HttpBasics.

Definition server : M unit :=
  let! r := get_req in
  let url := url r in
  if String.eqb url "/" then
    res_writeHead 200 "text/html" >>
    res_write "<h1 style='font-family: cursive; font-size: 28px'>Welcome to our app home page !!</h1>" >>
    res_end
  else if String.eqb url "/about" then
    res_writeHead 200 "text/html" >>
    res_write "<h1 style='font-family: cursive; font-size: 28px'>We are an awesome app, check us out !!</h1>" >>
    res_end
  else
    res_writeHead 404 "text/html" >>
    res_write "<h1 style='font-family: cursive; font-size: 28px; color: red '>Page not found ):</h1>" >>
    res_end.

End HttpBasics.

(** ** 02-http-app.js (lines 1-76): the [http] server that serves the
    navbar application.  The four files are read once at start-up. *)
Module HttpApp.

Definition server (homePage homePageStyle homePageLogo homePageAppJs : string)
  : M unit :=
  let! r := get_req in
  let url := url r in
  if String.eqb url "/" then
    res_writeHead 200 "text/html" >> res_write homePage >> res_end
  else if String.eqb url "/styles.css" then
    res_writeHead 200 "text/css" >> res_write homePageStyle >> res_end
  else if String.eqb url "/logo.svg" then
    res_writeHead 200 "image/svg+xml" >> res_write homePageLogo >> res_end
  else if String.eqb url "/browser-app.js" then
    res_writeHead 200 "text/javascript" >> res_write homePageAppJs >> res_end
  else if String.eqb url "/about" then
    res_writeHead 200 "text/html" >>
    res_write "<h1 style='font-family: cursive; font-size: 28px'>We are an awesome app, check us out !!</h1>" >>
    res_end
  else
    res_writeHead 404 "text/html" >>
    res_write "<h1 style='font-family: cursive; font-size: 28px; color: red '>Page not found ):</h1>" >>
    res_end.

End HttpApp.

(** The catch-all page shared by the first Express examples. *)
Definition resource_not_found_28 : string :=
  "<h1 style='font-family: cursive; font-size: 28px; color: red'>Resource not found</h1>".

(** ** 02-http-app.js (lines 77-112): the first Express application *)
Module ExpressApp.

(** [expressApp.get("/")] *)
Definition home : M unit :=
  res_status 200 >>
  res_send (Text "<h1 style='font-family: cursive; font-size: 28px'>Home Page</h1>").

(** [expressApp.get("/about")] *)
Definition about : M unit :=
  res_status 200 >>
  res_send (Text "<h1 style='font-family: cursive; font-size: 28px'>About Page</h1>").

(** [expressApp.all("/{*any}")] *)
Definition notFound : M unit :=
  res_status 404 >> res_send (Text resource_not_found_28).

End ExpressApp.

(** ** 04-express-app.js: static assets and [sendFile] *)
Module StaticApp.

(** [app.get("/")]: the path is resolved against the script's directory. *)
Definition home : M unit :=
  res_status 200 >> res_sendFile "navbar-app/index.html".

(** [app.all("/{*any}")] *)
Definition notFound : M unit :=
  res_status 404 >> res_send (Text resource_not_found_28).

End StaticApp.

(** ** 05-all-static.js: everything served from [public] *)
Module AllStatic.

(** [app.all("/{*any}")] *)
Definition notFound : M unit :=
  res_status 404 >> res_send (Text resource_not_found_28).

End AllStatic.

(** ** 06-basic-json.js *)
Module BasicJson.

(** [app.get("/")] *)
Definition home : M unit :=
  let! products := get_products in
  res_status 200 >> res_json (JS.VArr (map product_json products)).

(** [app.all("/{*any}")]: here the markup is wrapped in double quotes. *)
Definition notFound : M unit :=
  res_status 404 >>
  res_send (Text (dq +:+ resource_not_found_28 +:+ dq)).

End BasicJson.

(** The pages shared by the two products examples. *)
Definition products_home_page : string :=
  "<h1 style='font-family: cursive; font-size: 36px;'>Home page</h1> <a href="
  +:+ dq +:+ "/api/products" +:+ dq +:+ ">products</a>".

Definition about_page_36 : string :=
  "<h1 style='font-family: cursive; font-size: 36px;'>About page</h1>".

(** [{ id, name, image }] of a product. *)
Definition basic_info (p : product) : JS.value :=
  JS.VObj [("id", JS.VNum (product_id p)); ("name", JS.VStr (product_name p));
           ("image", JS.VStr (product_image p))].

(** ** unnamed/part_001: route and query parameters, the basic variant *)
Module ProductsBasic.

(** [app.get("/")] *)
Definition home : M unit :=
  res_status 200 >> res_send (Text products_home_page).

(** [app.get("/api/products")] *)
Definition listProducts : M unit :=
  let! products := get_products in
  let basicProductInfoList := map basic_info products in
  res_status 200 >> res_send (Data (JS.VArr basicProductInfoList)).

(** [app.get("/api/products/:productId")] *)
Definition getProduct : M unit :=
  let! r := get_req in
  let! products := get_products in
  let selectedProductId := params r !! "productId" in
  let selectedProductInfo :=
    List.find
      (fun product =>
         JS.strict_eq (product_id product) (JS.Number_opt selectedProductId))
      products in
  match selectedProductInfo with
  | None =>
      res_status 404 >>
      res_send (Text "<h1 style='font-family: cursive; font-size: 28px; color: red'>Product not found</h1>")
  | Some info => res_status 200 >> res_send (Data (product_json info))
  end.

(** [app.get("/api/products/:productId/userPreferences/:userPreferenceId/reviews/:reviewId")] *)
Definition getReview : M unit :=
  res_status 200 >>
  res_send (Text "<h1 style='font-family: cursive; font-size: 28px;'>Hello, we have processed all your Route Params</h1>").

(** The two filtering steps of [app.get("/api/v1/query")]. *)
Definition search_filter (search : option JS.qvalue) (l : list product)
  : list product :=
  if JS.qtruthy search
  then List.filter
         (fun product =>
            JS.includes (product_name product) (JS.ToString_q search)) l
  else l.

Definition limit_filter (limit : option JS.qvalue) (l : list product)
  : list product :=
  if JS.qtruthy limit then JS.slice0 l (JS.Number_q limit) else l.

(** [app.get("/api/v1/query")] *)
Definition queryProducts : M unit :=
  let! r := get_req in
  let! products := get_products in
  let searchableProducts := products in
  let search := query r !! "search" in
  let limit := query r !! "limit" in
  let searchableProducts := search_filter search searchableProducts in
  let searchableProducts := limit_filter limit searchableProducts in
  if (length searchableProducts <? 1)%nat then
    res_status 200 >>
    res_json (JS.VObj [("searchSuccess", JS.VBool true); ("data", JS.VArr [])])
  else
    res_status 200 >>
    res_json (JS.VArr (map product_json searchableProducts)).

(** [app.get("/about")] *)
Definition about : M unit :=
  res_status 200 >> res_send (Text about_page_36).

(** [app.all("/{*any}")] *)
Definition notFound : M unit :=
  res_status 404 >> res_send (Text resource_not_found_28).

End ProductsBasic.

(** ** 08-middleware-basic-explained.js (lines 224-499): route and query
    parameters, the explained variant *)
Module ProductsExplained.

(** [app.get("/")] *)
Definition home : M unit :=
  res_status 200 >> res_send (Text products_home_page).

(** [app.get("/api/products")] *)
Definition listProducts : M unit :=
  let! products := get_products in
  let basicProductInfoList := map basic_info products in
  res_status 200 >> res_json (JS.VArr basicProductInfoList).

(** [app.get("/api/products/:productId")] *)
Definition getProduct : M unit :=
  let! r := get_req in
  let! products := get_products in
  let productIdString := params r !! "productId" in
  let productIdNumber := JS.Number_opt productIdString in
  if JS.isNaN productIdNumber then
    res_status 400 >>
    res_json (JS.VObj [("error", JS.VStr "Invalid product ID. Must be a number.");
                       ("received", JS.opt_str productIdString)])
  else
    let selectedProductInfo :=
      List.find
        (fun product => JS.strict_eq (product_id product) productIdNumber)
        products in
    match selectedProductInfo with
    | None =>
        res_status 404 >>
        res_json (JS.VObj [("error", JS.VStr "Product not found");
                           ("searchedId", JS.VNum productIdNumber)])
    | Some info => res_status 200 >> res_json (product_json info)
    end.

(** [req.params] as an object: the parameters the route binds, in the
    order of the route. *)
Fixpoint params_object (keys : list string) (ps : gmap string string)
  : list (string * JS.value) :=
  match keys with
  | [] => []
  | k :: keys' =>
      match ps !! k with
      | Some v => (k, JS.VStr v) :: params_object keys' ps
      | None => params_object keys' ps
      end
  end.

(** [app.get("/api/products/:productId/userPreferences/:userPreferenceId/reviews/:reviewId")] *)
Definition getReview : M unit :=
  let! r := get_req in
  res_status 200 >>
  res_json
    (JS.VObj
       [("message", JS.VStr "Successfully processed all your route params");
        ("params",
         JS.VObj (params_object ["productId"; "userPreferenceId"; "reviewId"]
                                (params r)));
        ("note", JS.VStr "In real app, these would be validated and used to fetch data")]).

(** The search step: [search.toLowerCase()] exists on strings only. *)
Definition search_filter (search : option JS.qvalue) (l : list product)
  : outcome (list product) :=
  if JS.qtruthy search then
    match search with
    | Some (JS.QStr search) =>
        let searchTerm := JS.toLowerCase search in
        Return (List.filter
                  (fun product =>
                     JS.includes (JS.toLowerCase (product_name product))
                                 searchTerm)
                  l)
    | _ => Throw (TypeError "search.toLowerCase is not a function")
    end
  else Return l.

(** The limit step. *)
Definition limit_filter (limit : option JS.qvalue) (l : list product)
  : list product :=
  if JS.qtruthy limit then
    let limitNumber := JS.Number_q limit in
    if negb (JS.isNaN limitNumber) && JS.gt limitNumber JS.zero
    then JS.slice0 l limitNumber
    else l
  else l.

(** [app.get("/api/v1/query")] *)
Definition queryProducts : M unit :=
  let! r := get_req in
  let! products := get_products in
  let searchableProducts := products in
  let search := query r !! "search" in
  let limit := query r !! "limit" in
  let! searchableProducts := lift (search_filter search searchableProducts) in
  let searchableProducts := limit_filter limit searchableProducts in
  if (length searchableProducts <? 1)%nat then
    res_status 200 >>
    res_json (JS.VObj [("success", JS.VBool true);
                       ("message", JS.VStr "No products matched your search criteria");
                       ("data", JS.VArr [])])
  else
    res_status 200 >>
    res_json (JS.VObj [("success", JS.VBool true);
                       ("count", JS.VNum (JS.of_Z (Z.of_nat (length searchableProducts))));
                       ("data", JS.VArr (map product_json searchableProducts))]).

(** [app.get("/about")] *)
Definition about : M unit :=
  res_status 200 >> res_send (Text about_page_36).

(** [app.use((req, res) => ...)]: the 404 handler *)
Definition notFound : M unit :=
  res_status 404 >> res_send (Text resource_not_found_28).

End ProductsExplained.

(** The four pages of the two middleware examples. *)
Definition cursive_page (title : string) : string :=
  "<h1 style=" +:+ dq +:+ "font-family: cursive" +:+ dq +:+ ">" +:+ title
  +:+ "</h1>".

(** [{ name: user, id: 3 }] *)
Definition user_record (user : option JS.qvalue) : JS.value :=
  JS.VObj [("name", match user with
                    | Some q => JS.qjson q
                    | None => JS.VUndefined
                    end);
           ("id", JS.VNum (JS.of_Z 3))].

(** ** 08-middleware-basic-&&-usage.js with its two middleware,
    unnamed/part_000 (logger) and unnamed/part_003 (authorize).
    A middleware takes the rest of the chain as [next]. *)
Module MiddlewareBasic.

(** unnamed/part_000: reads the method, the URL and the year for the
    console, then passes control on. *)
Definition logger (next : M unit) : M unit :=
  let! r := get_req in
  let method := method r in
  let url := url r in
  next.

(** unnamed/part_003 *)
Definition authorize (next : M unit) : M unit :=
  let! r := get_req in
  let user := query r !! "user" in
  if JS.qtruthy user then
    set_user (user_record user) >>
    next
  else
    res_status 401 >>
    res_send (Text ("<h1 style=" +:+ dq +:+ "font-family: cursive; color: red"
                    +:+ dq +:+ ">You are not authorized to access this resource</h1>")).

(** [app.get("/")] *)
Definition home : M unit :=
  res_status 200 >> res_send (Text (cursive_page "Home Page")).

(** [app.get("/about")] *)
Definition about : M unit :=
  res_status 200 >> res_send (Text (cursive_page "About Page")).

(** [app.get("/api/v1/products")] *)
Definition productsPage : M unit :=
  res_status 200 >> res_send (Text (cursive_page "Products Page")).

(** [app.get("/api/v1/customers")] *)
Definition customersPage : M unit :=
  res_status 200 >> res_send (Text (cursive_page "Customers Page")).

End MiddlewareBasic.

(** An error handed to Express's error-handling middleware: the values of
    [err.status] and [err.message], [VUndefined] when the property is
    missing. *)
Record error := {
  err_status : JS.value;
  err_message : JS.value
}.

(** [a || b] *)
Definition js_or (a b : JS.value) : JS.value :=
  if JS.truthy a then a else b.

(** The integer a number is, when [Number.isInteger] holds of it. *)
Definition integer_of (n : JS.number) : option Z :=
  match n with
  | S754_zero _ => Some 0
  | S754_finite s m e =>
      if 0 <=? e then Some (if s then - (Zpos m * 2 ^ e) else Zpos m * 2 ^ e)
      else if Zpos m mod 2 ^ (- e) =? 0
           then Some (if s then - (Zpos m / 2 ^ (- e)) else Zpos m / 2 ^ (- e))
           else None
  | S754_infinity _ | S754_nan => None
  end.

(** [res.status(v)] for any value [v]: a TypeError unless [v] is an
    integer, then as [res_status]. *)
Definition res_status_value (v : JS.value) : M unit :=
  match v with
  | JS.VNum n =>
      match integer_of n with
      | Some code => res_status code
      | None => throw (TypeError "Invalid status code")
      end
  | _ => throw (TypeError "Invalid status code")
  end.

(** ** 08-middleware-basic-explained.js (lines 1-223) with its two
    middleware, unnamed/part_002 (logger) and app.js lines 25-220
    (authorize) *)
Module MiddlewareExplained.

(** unnamed/part_002 *)
Definition logger (next : M unit) : M unit :=
  let! r := get_req in
  let method := method r in
  let url := url r in
  next.

Definition unauthorized_page : string :=
  "
    <h1 style=" +:+ dq +:+ "font-family: cursive; color: red" +:+ dq +:+ ">
      Unauthorized Access
    </h1>
    <p>Please provide a valid user parameter. Example: ?user=yourname</p>
  ".

(** app.js, lines 35-143 *)
Definition authorize (next : M unit) : M unit :=
  let! r := get_req in
  let user := query r !! "user" in
  if JS.qtruthy user then
    set_user (user_record user) >>
    next
  else
    res_status 401 >>
    res_send (Text unauthorized_page).

(** [app.get("/")] *)
Definition home : M unit :=
  res_status 200 >> res_send (Text (cursive_page "Home Page")).

(** [app.get("/about")] *)
Definition about : M unit :=
  res_status 200 >> res_send (Text (cursive_page "About Page")).

(** [app.get("/api/v1/products")] *)
Definition productsPage : M unit :=
  res_status 200 >> res_send (Text (cursive_page "Products Page")).

(** [app.get("/api/v1/customers")] *)
Definition customersPage : M unit :=
  res_status 200 >> res_send (Text (cursive_page "Customers Page")).

(** [app.use((err, req, res, next) => ...)]: [err.status || 500] and
    [err.message || 'Internal server error'] *)
Definition errorHandler (err : error) : M unit :=
  res_status_value (js_or (err_status err) (JS.VNum (JS.of_Z 500))) >>
  res_json (JS.VObj [("error",
                      js_or (err_message err)
                            (JS.VStr "Internal server error"))]).

(** [app.use((req, res) => ...)]: the 404 handler *)
Definition notFound : M unit :=
  res_status 404 >>
  res_send (Text ("<h1 style=" +:+ dq +:+ "font-family: cursive; color: red"
                  +:+ dq +:+ ">404 - Resource not found</h1>")).

End MiddlewareExplained.

(** ** controllers/people.js *)
Module People.

(** [const { name } = req.body] *)
Definition destructure_name (b : JS.value) : M JS.value :=
  match JS.name_of b with
  | Some v => ret v
  | None =>
      throw (TypeError "Cannot destructure property 'name' of 'req.body' as it is undefined.")
  end.

(** [req.body?.name] *)
Definition optional_name (b : JS.value) : JS.value :=
  match JS.name_of b with
  | Some v => v
  | None => JS.VUndefined
  end.

(** Truthiness of a route parameter. *)
Definition param_truthy (o : option string) : bool :=
  match o with
  | Some s => JS.nonempty s
  | None => false
  end.

(** [`${personId}`] *)
Definition param_text (o : option string) : string :=
  match o with
  | Some s => s
  | None => "undefined"
  end.

Definition getPeople : M unit :=
  let! people := get_people in
  res_status 200 >>
  res_json (JS.VObj [("success", JS.VBool true);
                     ("people", JS.VArr (map person_json people))]).

Definition createPerson : M unit :=
  let! r := get_req in
  let! name := destructure_name (body r) in
  if JS.truthy name then
    res_status 201 >>
    res_json (JS.VObj [("success", JS.VBool true); ("person", name)])
  else
    res_status 400 >>
    res_json (JS.VObj [("success", JS.VBool false);
                       ("msg", JS.VStr "Please provide user name")]).

Definition createPersonPostman : M unit :=
  let! r := get_req in
  let! people := get_people in
  let! name := destructure_name (body r) in
  if JS.truthy name then
    res_status 201 >>
    res_json
      (JS.VObj
         [("success", JS.VBool true);
          ("data",
           JS.VArr (map person_json people
                    ++ [JS.VObj [("name", name);
                                 ("id", JS.VNum (JS.of_Z (Z.of_nat (length people) + 1)))]]))])
  else
    res_status 400 >>
    res_json (JS.VObj [("success", JS.VBool false);
                       ("data", JS.VStr "Please provide a valid name")]).

(** [person.id === Number(personId)] *)
Definition has_id (personId : option string) (p : person) : bool :=
  JS.strict_eq (person_id p) (JS.Number_opt personId).

Definition updatePerson : M unit :=
  let! r := get_req in
  let! people := get_people in
  let personId := params r !! "personId" in
  let name := optional_name (body r) in
  let doesPersonExist := List.find (has_id personId) people in
  if negb (param_truthy personId) || negb (JS.truthy name) then
    res_status 400 >>
    res_json (JS.VObj [("success", JS.VBool false);
                       ("msg", JS.VStr "Please provide the id of the resource to be updated && their new name")])
  else
    match doesPersonExist with
    | None =>
        res_status 404 >>
        res_json (JS.VObj [("success", JS.VBool false);
                           ("msg", JS.VStr ("No resource with the Id "
                                            +:+ param_text personId +:+ " found"))])
    | Some _ =>
        let updatedPeopleList :=
          map (fun person =>
                 if has_id personId person
                 then JS.VObj [("id", JS.VNum (person_id person)); ("name", name)]
                 else person_json person)
              people in
        res_status 200 >>
        res_json (JS.VObj [("success", JS.VBool true);
                           ("data", JS.VArr updatedPeopleList)])
    end.

Definition deletePerson : M unit :=
  let! r := get_req in
  let! people := get_people in
  let personId := params r !! "personId" in
  let doesPersonExist := List.find (has_id personId) people in
  if negb (param_truthy personId) then
    res_status 400 >>
    res_json (JS.VObj [("success", JS.VBool false);
                       ("msg", JS.VStr "Please provide the id of the resource to be deleted")])
  else
    match doesPersonExist with
    | None =>
        res_status 404 >>
        res_json (JS.VObj [("success", JS.VBool false);
                           ("msg", JS.VStr ("No resource with the Id "
                                            +:+ param_text personId +:+ " found"))])
    | Some _ =>
        let updatedPeopleList :=
          List.filter (fun person => negb (has_id personId person)) people in
        res_status 200 >>
        res_json (JS.VObj [("success", JS.VBool true);
                           ("data", JS.VArr (map person_json updatedPeopleList))])
    end.

End People.

(** ** routes/auth.js: the form login *)
Module Auth.

(** [router.post("/")] *)
Definition login : M unit :=
  let! r := get_req in
  let! name := People.destructure_name (body r) in
  if JS.truthy name then
    res_status 200 >>
    res_send (Template
                [Lit ("<h1 style=" +:+ dq +:+ "font-family: cursive;" +:+ dq
                      +:+ "> Welcome dear <span style=" +:+ dq
                      +:+ "color: green" +:+ dq +:+ ">");
                 Interp name;
                 Lit "</span></h1>"])
  else
    res_status 400 >>
    res_send (Text ("<h1 style=" +:+ dq +:+ "font-family: cursive; color: red"
                    +:+ dq +:+ ">Please provide valid user info</h1>")).

End Auth.

(** ** Every handler and middleware of the repository *)

(** The plain handlers; [err] is the error given to the error handler and
    the four strings are the files of the navbar application. *)
Definition route_handlers (err : error)
  (homePage homePageStyle homePageLogo homePageAppJs : string)
  : list (M unit) :=
  [ HttpBasics.server;
    HttpApp.server homePage homePageStyle homePageLogo homePageAppJs;
    ExpressApp.home; ExpressApp.about; ExpressApp.notFound;
    StaticApp.home; StaticApp.notFound;
    AllStatic.notFound;
    BasicJson.home; BasicJson.notFound;
    ProductsBasic.home; ProductsBasic.listProducts; ProductsBasic.getProduct;
    ProductsBasic.getReview; ProductsBasic.queryProducts; ProductsBasic.about;
    ProductsBasic.notFound;
    ProductsExplained.home; ProductsExplained.listProducts;
    ProductsExplained.getProduct; ProductsExplained.getReview;
    ProductsExplained.queryProducts; ProductsExplained.about;
    ProductsExplained.notFound;
    MiddlewareBasic.home; MiddlewareBasic.about; MiddlewareBasic.productsPage;
    MiddlewareBasic.customersPage;
    MiddlewareExplained.home; MiddlewareExplained.about;
    MiddlewareExplained.productsPage; MiddlewareExplained.customersPage;
    MiddlewareExplained.errorHandler err; MiddlewareExplained.notFound;
    People.getPeople; People.createPerson; People.createPersonPostman;
    People.updatePerson; People.deletePerson;
    Auth.login ].

(** The middleware, each a function of the rest of the chain. *)
Definition middleware : list (M unit -> M unit) :=
  [ MiddlewareBasic.logger; MiddlewareBasic.authorize;
    MiddlewareExplained.logger; MiddlewareExplained.authorize ].

(** ** Concrete data for the worked instances *)

Definition sample_product (i : Z) (name : string) : product :=
  {| product_id := JS.of_Z i; product_name := name;
     product_image := "/images/" +:+ name; product_price := JS.of_Z (10 * i);
     product_desc := name |}.

Definition sample_products : list product :=
  [ sample_product 1 "wooden chair"; sample_product 2 "Wooden Table";
    sample_product 3 "leather sofa"; sample_product 4 "bar stool";
    sample_product 5 "WOODEN desk"; sample_product 6 "bed frame" ].

Definition sample_people : list person :=
  [ {| person_id := JS.of_Z 1; person_name := "john" |};
    {| person_id := JS.of_Z 2; person_name := "peter" |};
    {| person_id := JS.of_Z 3; person_name := "susan" |} ].

(** A request as it reaches the first handler, and the world it meets. *)
Definition request_of (m u : string) (ps : gmap string string)
  (q : gmap string JS.qvalue) (b : JS.value) : request :=
  {| method := m; url := u; params := ps; query := q; body := b;
     user := JS.VUndefined |}.

Definition fresh_world (r : request) : world :=
  {| products := sample_products; people := sample_people; req := r;
     res := [] |}.

(** The same world with another query string. *)
Definition with_query (q : gmap string JS.qvalue) (w : world) : world :=
  let r := req w in
  {| products := products w; people := people w;
     req := {| method := method r; url := url r; params := params r;
               query := q; body := body r; user := user r |};
     res := res w |}.

(** The world after [req.user = v]. *)
Definition attach_user (v : JS.value) (w : world) : world :=
  snd (set_user v w).

(** The world after the calls [cs] on its response object. *)
Definition respond (cs : list call) (w : world) : world :=
  {| products := products w; people := people w; req := req w;
     res := res w ++ cs |}.

(** [w'] differs from [w] at most in the response object: the two arrays
    and the request are the same. *)
Definition only_responds (w w' : world) : Prop :=
  products w' = products w /\ people w' = people w /\ req w' = req w.

(** [req.user] in a world. *)
Definition req_user (w : world) : JS.value := user (req w).

(** Two worlds that differ at most in [req.user]. *)
Definition same_but_user (w w' : world) : Prop :=
  products w' = products w /\ people w' = people w /\ res w' = res w
  /\ method (req w') = method (req w) /\ url (req w') = url (req w)
  /\ params (req w') = params (req w) /\ query (req w') = query (req w)
  /\ body (req w') = body (req w).

(** The contract of an authorize middleware [auth]: with [user] absent or
    empty it sends 401 whatever [next] is, so [next] is not called, and the
    request is left as it was; otherwise it is [next] run on the request
    with [req.user] attached, with no call of its own on the response: the
    world [next] starts in has [{ name: user, id: 3 }] as [req.user] and is
    the incoming one in everything else; and each of the two behaviours
    occurs in no other case. *)
Definition authorize_contract (auth : M unit -> M unit) (w : world) : Prop :=
  let user := query (req w) !! "user" in
  let unauthenticated := user = None \/ user = Some (JS.QStr EmptyString) in
  (unauthenticated ->
   forall next, status_of (run (auth next) w) = Some 401
                /\ auth next w = auth (ret tt) w)
  /\ (~ unauthenticated ->
      forall next, auth next w = next (attach_user (user_record user) w))
  /\ (status_of (run (auth (ret tt)) w) = Some 401 <-> unauthenticated)
  /\ ((forall next, auth next w = auth (ret tt) w) <-> unauthenticated)
  /\ (forall q,
         user = Some q -> q <> JS.QStr EmptyString ->
         exists w',
           (forall next, auth next w = next w')
           /\ req_user w'
              = JS.VObj [("name", JS.qjson q); ("id", JS.VNum (JS.of_Z 3))]
           /\ same_but_user w w')
  /\ (unauthenticated ->
      forall next, req (snd (auth next w)) = req w
                   /\ fst (auth next w) = Return tt).

(** A handler that keeps the single-response discipline: started on a
    fresh response object it completes at most one response and makes no
    response call after completing it. *)
Definition sends_at_most_once (h : M unit) : Prop :=
  forall w, res w = [] ->
            single_response (run h w) = true /\ (responses (run h w) <= 1)%nat.

(** The next request against the arrays a handler left behind. *)
Definition next_request (r : request) (w : world) : world :=
  {| products := products w; people := people w; req := r; res := [] |}.

(** ** epf_eps_calculator.js: the command-line parser *)
Module Calculator.

(** What [parseArgs] stores under a key: [true] for a bare flag, the text
    of a value that is not numeric, or its number. *)
Inductive arg_value :=
| ATrue
| AStr (s : string)
| ANum (n : JS.number).

(** [a.startsWith('--')] *)
Definition starts_with_dashes (a : string) : bool := String.prefix "--" a.

(** [a.slice(2)] *)
Definition slice2 (a : string) : string :=
  match a with
  | String _ (String _ rest) => rest
  | _ => EmptyString
  end.

(** [out[key] = v] on the object literal [out]: the key [__proto__] is the
    prototype accessor, and assigning it a primitive leaves [out] as it
    is. *)
Definition assign (key : string) (v : arg_value)
  (out : gmap string arg_value) : gmap string arg_value :=
  if String.eqb key "__proto__" then out else <[key := v]> out.

(** [isNaN(Number(val)) ? val : Number(val)] *)
Definition value_of (val : string) : arg_value :=
  if JS.isNaN (JS.Number val) then AStr val else ANum (JS.Number val).

(** The loop of [parseArgs] over the arguments from index [i] on. *)
Fixpoint parse_from (args : list string) (out : gmap string arg_value)
  : gmap string arg_value :=
  match args with
  | [] => out
  | a :: rest =>
      if starts_with_dashes a then
        let key := slice2 a in
        match rest with
        | val :: rest' =>
            if JS.nonempty val && negb (starts_with_dashes val)
            then parse_from rest' (assign key (value_of val) out)
            else parse_from rest (assign key ATrue out)
        | [] => assign key ATrue out
        end
      else parse_from rest out
  end.

(** [parseArgs()], with [args] for [process.argv.slice(2)]. *)
Definition parseArgs (args : list string) : gmap string arg_value :=
  parse_from args ∅.

(** The values [parseArgs] can store: a text is not numeric, not empty and
    not a flag; a number is not NaN. *)
Definition well_typed (v : arg_value) : Prop :=
  match v with
  | ATrue => True
  | AStr s => JS.isNaN (JS.Number s) = true
              /\ JS.nonempty s = true /\ starts_with_dashes s = false
  | ANum n => JS.isNaN n = false
  end.

End Calculator.

(** ** Reading answers, and requests in sequence *)

(** [v.key] for a JSON object [v]. *)
Definition json_get (k : string) (v : JS.value) : JS.value :=
  match v with
  | JS.VObj fs => JS.field k fs
  | _ => JS.VUndefined
  end.

(** The world a handler leaves when it serves the request [r] with a fresh
    response object. *)
Definition serve (h : M unit) (r : request) (w : world) : world :=
  snd (h (next_request r w)).

(** Requests served one after the other. *)
Fixpoint serve_all (hs : list (M unit * request)) (w : world) : world :=
  match hs with
  | [] => w
  | (h, r) :: hs' => serve_all hs' (serve h r w)
  end.

(** What can be registered for a route: one of the handlers [hs], or a
    middleware in front of something that can. *)
Inductive pipeline (hs : list (M unit)) : M unit -> Prop :=
| pipeline_handler h : In h hs -> pipeline hs h
| pipeline_middleware mw h :
    In mw middleware -> pipeline hs h -> pipeline hs (mw h).

(** A handler that leaves the two arrays alone, whatever the world. *)
Definition keeps_store (h : M unit) : Prop :=
  forall w, products (snd (h w)) = products w /\ people (snd (h w)) = people w.

(** The pages of the two middleware applications. *)
Definition middleware_basic_pages : list (M unit) :=
  [ MiddlewareBasic.home; MiddlewareBasic.about; MiddlewareBasic.productsPage;
    MiddlewareBasic.customersPage ].

Definition middleware_explained_pages : list (M unit) :=
  [ MiddlewareExplained.home; MiddlewareExplained.about;
    MiddlewareExplained.productsPage; MiddlewareExplained.customersPage ].

(* ================================================================== *)
(** * Properties *)
(* ================================================================== *)

(** Unfolding of the monad and of the response calls. *)
Ltac unfold_calls :=
  unfold run, bind, ret, throw, lift, get_req, get_products, get_people, set_user,
    res_status, res_send, res_json, res_sendFile, res_writeHead, res_write,
    res_end, header_call, log_call in *.

(** A world whose response object is fresh, taken apart. *)
Ltac fresh_response w H :=
  destruct w as [?products ?people ?r ?tr]; simpl in H; subst; simpl in *.

(** ** Numbers *)

Lemma strict_eq_NaN (x y : JS.number) :
  JS.isNaN y = true -> JS.strict_eq x y = false.
Proof.
  destruct y; simpl; try discriminate. intros _.
  unfold JS.strict_eq, SFeqb. now destruct x.
Qed.

Lemma find_NaN {A : Type} (f : A -> JS.number) (y : JS.number) (l : list A) :
  JS.isNaN y = true ->
  List.find (fun a => JS.strict_eq (f a) y) l = None.
Proof.
  intros Hy. induction l as [|a l IH]; simpl; [reflexivity|].
  now rewrite strict_eq_NaN.
Qed.

Lemma find_no_match {A : Type} (f : A -> bool) (l : list A) :
  (forall a, In a l -> f a = false) -> List.find f l = None.
Proof.
  induction l as [|a l IH]; simpl; intros H; [reflexivity|].
  rewrite (H a) by now left. apply IH. intros b Hb. apply H. now right.
Qed.

Example Number_abc : JS.Number "abc" = JS.NaN.
Proof. reflexivity. Qed.

Example Number_minus_5 : JS.Number "-5" = S754_finite true 5629499534213120 (-50).
Proof. reflexivity. Qed.

Example Number_9999 : JS.strict_eq (JS.Number "9999") (JS.of_Z 9999) = true.
Proof. reflexivity. Qed.

Example Number_rounds :
  JS.strict_eq (JS.Number "1.00000000000000000001") (JS.of_Z 1) = true.
Proof. reflexivity. Qed.

(** ** Route parameters *)

(** C1, the basic variant at [/api/products/abc]: the id does not parse,
    and the answer is 404, not 400. *)
Lemma getProduct_basic_abc_is_404 :
  let w := fresh_world (request_of "GET" "/api/products/abc"
                          {[ "productId" := "abc" ]} ∅ JS.VUndefined) in
  JS.isNaN (JS.Number_opt (params (req w) !! "productId")) = true
  /\ status_of (run ProductsBasic.getProduct w) = Some 404
  /\ status_of (run ProductsBasic.getProduct w) <> Some 400.
Proof. vm_compute. repeat split; congruence. Qed.

(** C1 as amended: a product id that does not parse as a number is answered
    with 400 by the explained variant and with 404 by the basic variant,
    whatever the catalogue. *)
Theorem getProduct_unparsable_id (w : world) :
  res w = [] ->
  JS.isNaN (JS.Number_opt (params (req w) !! "productId")) = true ->
  status_of (run ProductsExplained.getProduct w) = Some 400
  /\ status_of (run ProductsBasic.getProduct w) = Some 404.
Proof.
  intros Hres Hnan. split.
  - unfold run, ProductsExplained.getProduct, bind, get_req, get_products.
    simpl. rewrite Hnan. simpl.
    unfold header_call, log_call. simpl. rewrite Hres. reflexivity.
  - unfold run, ProductsBasic.getProduct, bind, get_req, get_products.
    simpl. rewrite find_NaN by assumption.
    simpl. unfold header_call, log_call. simpl. rewrite Hres. reflexivity.
Qed.

Lemma getProduct_unparsable_id_witness :
  let w := fresh_world (request_of "GET" "/api/products/abc"
                          {[ "productId" := "abc" ]} ∅ JS.VUndefined) in
  status_of (run ProductsExplained.getProduct w) = Some 400
  /\ status_of (run ProductsBasic.getProduct w) = Some 404.
Proof.
  apply getProduct_unparsable_id; vm_compute; reflexivity.
Defined.

(** C7: a product id that parses to a number matching no product's id is
    answered with 404, in the basic and in the explained variant. *)
Theorem getProduct_unknown_id (w : world) :
  let n := JS.Number_opt (params (req w) !! "productId") in
  res w = [] ->
  JS.isNaN n = false ->
  (forall p, In p (products w) -> JS.strict_eq (product_id p) n = false) ->
  status_of (run ProductsBasic.getProduct w) = Some 404
  /\ status_of (run ProductsExplained.getProduct w) = Some 404.
Proof.
  intros n Hres Hnum Hnone. subst n.
  fresh_response w Hres. split.
  - unfold ProductsBasic.getProduct. unfold_calls. simpl.
    rewrite find_no_match by exact Hnone. reflexivity.
  - unfold ProductsExplained.getProduct. unfold_calls. simpl.
    rewrite Hnum. rewrite find_no_match by exact Hnone. reflexivity.
Qed.

Lemma getProduct_unknown_id_witness :
  let w := fresh_world (request_of "GET" "/api/products/9999"
                          {[ "productId" := "9999" ]} ∅ JS.VUndefined) in
  status_of (run ProductsBasic.getProduct w) = Some 404
  /\ status_of (run ProductsExplained.getProduct w) = Some 404.
Proof.
  apply getProduct_unknown_id.
  - reflexivity.
  - vm_compute. reflexivity.
  - intros p Hp. vm_compute in Hp.
    repeat (destruct Hp as [<- | Hp]; [vm_compute; reflexivity|]).
    destruct Hp.
Defined.

(** The lesson's third request: an id that exists is answered with 200. *)
Example getProduct_1_is_200 :
  let w := fresh_world (request_of "GET" "/api/products/1"
                          {[ "productId" := "1" ]} ∅ JS.VUndefined) in
  status_of (run ProductsBasic.getProduct w) = Some 200
  /\ status_of (run ProductsExplained.getProduct w) = Some 200.
Proof. vm_compute. split; reflexivity. Qed.

(** ** Query parameters: [limit] *)

Lemma slice0_NaN {A : Type} (l : list A) : JS.slice0 l JS.NaN = [].
Proof.
  unfold JS.slice0. simpl.
  replace (Z.min 0 (Z.of_nat (length l))) with 0 by lia. reflexivity.
Qed.

Lemma slice0_minus_5 {A : Type} (l : list A) :
  JS.slice0 l (JS.Number "-5") = firstn (length l - 5) l.
Proof.
  unfold JS.slice0.
  change (JS.ToIntegerOrInfinity (JS.Number "-5")) with (JS.Integer (-5)).
  f_equal. destruct (Z.ltb_spec (-5) 0); lia.
Qed.

(** The explained variant skips a limit that is NaN or not positive. *)
Lemma limit_filter_explained_invalid (limit : option JS.qvalue) (l : list product) :
  negb (JS.isNaN (JS.Number_q limit)) && JS.gt (JS.Number_q limit) JS.zero = false ->
  ProductsExplained.limit_filter limit l = l.
Proof.
  intros H. unfold ProductsExplained.limit_filter.
  rewrite H. now destruct (JS.qtruthy limit).
Qed.

Lemma limit_filter_explained_absent (l : list product) :
  ProductsExplained.limit_filter None l = l.
Proof. reflexivity. Qed.

(** C2, the basic variant on the sample catalogue: [?limit=abc] empties the
    list and [?limit=-5] cuts its last five entries, where the request
    without a limit lists all six products. *)
Lemma queryProducts_basic_limit_not_ignored :
  let w := fresh_world (request_of "GET" "/api/v1/query" ∅ ∅ JS.VUndefined) in
  let answer q := response_of (run ProductsBasic.queryProducts (with_query q w)) in
  answer ∅ = Some (200, Data (JS.VArr (map product_json sample_products)))
  /\ answer {[ "limit" := JS.QStr "abc" ]}
     = Some (200, Data (JS.VObj [("searchSuccess", JS.VBool true);
                                 ("data", JS.VArr [])]))
  /\ answer {[ "limit" := JS.QStr "-5" ]}
     = Some (200, Data (JS.VArr [product_json (sample_product 1 "wooden chair")]))
  /\ answer {[ "limit" := JS.QStr "abc" ]} <> answer ∅
  /\ answer {[ "limit" := JS.QStr "-5" ]} <> answer ∅.
Proof.
  vm_compute. repeat split; try reflexivity; intros H; discriminate H.
Qed.

(** C2 as amended: in the explained variant [?limit=-5] and [?limit=abc]
    are ignored, the handler leaves the log it leaves without a limit, a
    200 when [search] is absent or a single string; the basic variant hands
    the limit to [slice] unchecked, so that [abc] gives the empty-result
    answer and [-5] cuts the last five products. *)
Theorem queryProducts_invalid_limit (w : world) (limit : string) :
  res w = [] ->
  limit = "-5" \/ limit = "abc" ->
  let q := query (req w) in
  let with_limit := with_query (<["limit" := JS.QStr limit]> q) w in
  let without_limit := with_query (delete "limit" q) w in
  run ProductsExplained.queryProducts with_limit
  = run ProductsExplained.queryProducts without_limit
  /\ ((forall l, q !! "search" <> Some (JS.QArr l)) ->
      status_of (run ProductsExplained.queryProducts with_limit) = Some 200)
  /\ run ProductsBasic.queryProducts
         (with_query (<["limit" := JS.QStr "abc"]> q) w)
     = [Status 200;
        Json (JS.VObj [("searchSuccess", JS.VBool true); ("data", JS.VArr [])])]
  /\ (let found := ProductsBasic.search_filter (q !! "search") (products w) in
      let kept := firstn (length found - 5) found in
      run ProductsBasic.queryProducts
          (with_query (<["limit" := JS.QStr "-5"]> q) w)
      = [Status 200;
         Json (if (length kept <? 1)%nat
               then JS.VObj [("searchSuccess", JS.VBool true);
                             ("data", JS.VArr [])]
               else JS.VArr (map product_json kept))]).
Proof.
  intros Hres Hlimit q with_limit without_limit.
  assert (Hskip : forall l,
             ProductsExplained.limit_filter (Some (JS.QStr limit)) l = l).
  { intros l. apply limit_filter_explained_invalid.
    destruct Hlimit as [-> | ->]; reflexivity. }
  subst q with_limit without_limit.
  fresh_response w Hres.
  assert (Hs : forall v, <["limit" := v]> (query r) !! "search"
                         = query r !! "search")
    by (intros v; now apply lookup_insert_ne).
  assert (Hd : delete "limit" (query r) !! "search" = query r !! "search")
    by now apply lookup_delete_ne.
  repeat split.
  - unfold ProductsExplained.queryProducts. unfold_calls. simpl.
    rewrite Hs, Hd, lookup_insert_eq, lookup_delete_eq.
    destruct (ProductsExplained.search_filter _ _) as [found|e];
      [|reflexivity].
    rewrite Hskip, limit_filter_explained_absent.
    destruct (length found <? 1)%nat; reflexivity.
  - intros Hstr.
    unfold ProductsExplained.queryProducts. unfold_calls. simpl.
    rewrite Hs, lookup_insert_eq.
    unfold ProductsExplained.search_filter.
    destruct (query r !! "search") as [[s|l]|] eqn:Hq; simpl.
    + destruct (JS.nonempty s); unfold_calls; rewrite Hskip;
        match goal with |- context [(?n <? 1)%nat] => destruct (n <? 1)%nat end;
        reflexivity.
    + now destruct (Hstr l).
    + unfold_calls. rewrite Hskip.
      match goal with |- context [(?n <? 1)%nat] => destruct (n <? 1)%nat end;
        reflexivity.
  - unfold ProductsBasic.queryProducts. unfold_calls. simpl.
    rewrite lookup_insert_eq. unfold ProductsBasic.limit_filter.
    change (JS.qtruthy (Some (JS.QStr "abc"))) with true. cbv iota.
    change (JS.Number_q (Some (JS.QStr "abc"))) with JS.NaN.
    rewrite slice0_NaN. reflexivity.
  - unfold ProductsBasic.queryProducts. unfold_calls. simpl.
    rewrite Hs, lookup_insert_eq. unfold ProductsBasic.limit_filter.
    change (JS.qtruthy (Some (JS.QStr "-5"))) with true. cbv iota.
    change (JS.Number_q (Some (JS.QStr "-5"))) with (JS.Number "-5").
    rewrite slice0_minus_5.
    match goal with |- context [(?n <? 1)%nat] => destruct (n <? 1)%nat end;
      reflexivity.
Qed.

Lemma queryProducts_invalid_limit_witness :
  let w := fresh_world (request_of "GET" "/api/v1/query?search=wooden&limit=-5"
                          ∅ {[ "search" := JS.QStr "wooden" ]} JS.VUndefined) in
  run ProductsExplained.queryProducts
      (with_query (<["limit" := JS.QStr "-5"]> (query (req w))) w)
  = run ProductsExplained.queryProducts
        (with_query (delete "limit" (query (req w))) w).
Proof.
  intros w.
  refine (proj1 (queryProducts_invalid_limit w "-5" _ _)).
  - reflexivity.
  - left. reflexivity.
Defined.

(** ** Query parameters: [search] *)

Lemma lower_char_idempotent (c : ascii) :
  JS.lower_char (JS.lower_char c) = JS.lower_char c.
Proof.
  destruct c as [[] [] [] [] [] [] [] []]; vm_compute; reflexivity.
Qed.

Lemma same_letter_lower (a b : ascii) :
  JS.same_letter a b -> JS.lower_char a = JS.lower_char b.
Proof.
  intros [-> | [<- | ->]];
    [reflexivity | symmetry | ]; apply lower_char_idempotent.
Qed.

Lemma differ_only_in_case_lower (s t : string) :
  JS.differ_only_in_case s t -> JS.toLowerCase s = JS.toLowerCase t.
Proof.
  induction 1 as [|a b s t Hab _ IH]; simpl; [reflexivity|].
  now rewrite (same_letter_lower a b Hab), IH.
Qed.

Lemma differ_only_in_case_nonempty (s t : string) :
  JS.differ_only_in_case s t -> JS.nonempty s = JS.nonempty t.
Proof. now destruct 1. Qed.

Lemma WOODEN_wooden : JS.differ_only_in_case "WOODEN" "wooden".
Proof.
  repeat (apply JS.case_char; [right; left; reflexivity|]).
  apply JS.case_empty.
Qed.

(** C3: in the explained variant two search terms that differ only in
    letter case select the same product records, and the whole answer is
    the same; in the basic variant the filter is case-sensitive, and the
    terms WOODEN and wooden select different records of the sample
    catalogue. *)
Theorem search_letter_case (s t : string) :
  JS.differ_only_in_case s t ->
  (forall catalogue,
      ProductsExplained.search_filter (Some (JS.QStr s)) catalogue
      = ProductsExplained.search_filter (Some (JS.QStr t)) catalogue)
  /\ (forall w,
         run ProductsExplained.queryProducts
             (with_query (<["search" := JS.QStr s]> (query (req w))) w)
         = run ProductsExplained.queryProducts
               (with_query (<["search" := JS.QStr t]> (query (req w))) w))
  /\ (exists catalogue s' t',
         JS.differ_only_in_case s' t'
         /\ ProductsBasic.search_filter (Some (JS.QStr s')) catalogue
            <> ProductsBasic.search_filter (Some (JS.QStr t')) catalogue).
Proof.
  intros Hst.
  assert (Hfilter : forall catalogue,
             ProductsExplained.search_filter (Some (JS.QStr s)) catalogue
             = ProductsExplained.search_filter (Some (JS.QStr t)) catalogue).
  { intros catalogue. unfold ProductsExplained.search_filter. simpl.
    rewrite (differ_only_in_case_nonempty s t Hst).
    now rewrite (differ_only_in_case_lower s t Hst). }
  split; [exact Hfilter|]. split.
  - intros w. destruct w as [catalogue folk r tr].
    unfold ProductsExplained.queryProducts. unfold_calls. simpl.
    rewrite !lookup_insert_eq.
    rewrite !lookup_insert_ne by discriminate.
    rewrite Hfilter.
    destruct (ProductsExplained.search_filter _ _) as [found|e];
      [|reflexivity].
    destruct (length _ <? 1)%nat; simpl; destruct (headers_sent _);
      reflexivity.
  - exists sample_products, "WOODEN"%string, "wooden"%string.
    split; [exact WOODEN_wooden|].
    vm_compute. intros H. discriminate H.
Qed.

Lemma search_letter_case_witness :
  ProductsExplained.search_filter (Some (JS.QStr "WOODEN")) sample_products
  = ProductsExplained.search_filter (Some (JS.QStr "wooden")) sample_products.
Proof.
  refine (proj1 (search_letter_case "WOODEN" "wooden" _) sample_products).
  repeat (apply JS.case_char; [right; left; reflexivity|]).
  apply JS.case_empty.
Defined.

(** On the sample catalogue the explained variant finds the three wooden
    products for either spelling; the basic variant finds one for each, and
    not the same one. *)
Example search_WOODEN_sample :
  ProductsExplained.search_filter (Some (JS.QStr "WOODEN")) sample_products
  = Return [sample_product 1 "wooden chair"; sample_product 2 "Wooden Table";
            sample_product 5 "WOODEN desk"]
  /\ ProductsBasic.search_filter (Some (JS.QStr "WOODEN")) sample_products
     = [sample_product 5 "WOODEN desk"]
  /\ ProductsBasic.search_filter (Some (JS.QStr "wooden")) sample_products
     = [sample_product 1 "wooden chair"].
Proof. vm_compute. repeat split; reflexivity. Qed.

(** ** The authorize middleware *)

Lemma qtruthy_false_iff (o : option JS.qvalue) :
  JS.qtruthy o = false <-> o = None \/ o = Some (JS.QStr EmptyString).
Proof.
  split.
  - destruct o as [[[|c s]|l]|]; simpl; try discriminate; auto.
  - now intros [-> | ->].
Qed.

(** The proof shared by the two variants of the middleware: what it does
    when the flag is falsy and when it is truthy. *)
Ltac authorize_cases w Hres :=
  fresh_response w Hres; unfold_calls; simpl;
  match goal with
  | H : JS.qtruthy ?u = _ |- _ => rewrite H
  end; reflexivity.

Lemma authorize_basic_falsy (next : M unit) (w : world) :
  res w = [] ->
  JS.qtruthy (query (req w) !! "user") = false ->
  MiddlewareBasic.authorize next w
  = (Return tt,
     respond [Status 401;
              Send (Text ("<h1 style=" +:+ dq +:+ "font-family: cursive; color: red"
                          +:+ dq +:+ ">You are not authorized to access this resource</h1>"))]
             w).
Proof.
  intros Hres Hu. unfold MiddlewareBasic.authorize, respond.
  authorize_cases w Hres.
Qed.

Lemma authorize_basic_truthy (next : M unit) (w : world) :
  JS.qtruthy (query (req w) !! "user") = true ->
  MiddlewareBasic.authorize next w
  = next (attach_user (user_record (query (req w) !! "user")) w).
Proof.
  intros Hu. unfold MiddlewareBasic.authorize, attach_user.
  unfold_calls. simpl. rewrite Hu. reflexivity.
Qed.

Lemma authorize_explained_falsy (next : M unit) (w : world) :
  res w = [] ->
  JS.qtruthy (query (req w) !! "user") = false ->
  MiddlewareExplained.authorize next w
  = (Return tt,
     respond [Status 401; Send (Text MiddlewareExplained.unauthorized_page)] w).
Proof.
  intros Hres Hu. unfold MiddlewareExplained.authorize, respond.
  authorize_cases w Hres.
Qed.

Lemma authorize_explained_truthy (next : M unit) (w : world) :
  JS.qtruthy (query (req w) !! "user") = true ->
  MiddlewareExplained.authorize next w
  = next (attach_user (user_record (query (req w) !! "user")) w).
Proof.
  intros Hu. unfold MiddlewareExplained.authorize, attach_user.
  unfold_calls. simpl. rewrite Hu. reflexivity.
Qed.

Lemma authorize_contract_intro (auth : M unit -> M unit) (w : world) (page : content) :
  res w = [] ->
  (JS.qtruthy (query (req w) !! "user") = false ->
   forall next, auth next w = (Return tt, respond [Status 401; Send page] w)) ->
  (JS.qtruthy (query (req w) !! "user") = true ->
   forall next,
     auth next w = next (attach_user (user_record (query (req w) !! "user")) w)) ->
  authorize_contract auth w.
Proof.
  intros Hres Hfalsy Htruthy. unfold authorize_contract.
  pose proof (qtruthy_false_iff (query (req w) !! "user")) as Hiff.
  assert (Hsent : JS.qtruthy (query (req w) !! "user") = false ->
                  forall next, status_of (run (auth next) w) = Some 401).
  { intros Hu next. unfold run. rewrite (Hfalsy Hu next).
    unfold respond. simpl. rewrite Hres. reflexivity. }
  repeat split.
  - apply Hsent. now apply Hiff.
  - apply Hiff in H. now rewrite !(Hfalsy H).
  - intros Hno next. apply Htruthy.
    destruct (JS.qtruthy (query (req w) !! "user")) eqn:Hu; [reflexivity|].
    destruct Hno. now apply Hiff.
  - intros H401. apply Hiff.
    destruct (JS.qtruthy (query (req w) !! "user")) eqn:Hu; [|reflexivity].
    unfold run in H401. rewrite (Htruthy eq_refl) in H401.
    unfold ret, attach_user, set_user in H401. simpl in H401.
    rewrite Hres in H401. discriminate H401.
  - intros Hu. apply Hsent. now apply Hiff.
  - intros Hsame. apply Hiff.
    destruct (JS.qtruthy (query (req w) !! "user")) eqn:Hu; [|reflexivity].
    specialize (Hsame (throw ERR_HTTP_HEADERS_SENT)).
    rewrite !(Htruthy eq_refl) in Hsame. discriminate Hsame.
  - intros Hu next. apply Hiff in Hu. now rewrite !(Hfalsy Hu).
  - intros q Hq Hne.
    assert (Hu : JS.qtruthy (query (req w) !! "user") = true).
    { destruct (JS.qtruthy (query (req w) !! "user")) eqn:Hu; [reflexivity|].
      destruct (proj1 Hiff eq_refl) as [Hn | Hn]; rewrite Hq in Hn.
      - discriminate Hn.
      - injection Hn as ->. now destruct Hne. }
    exists (attach_user (user_record (query (req w) !! "user")) w).
    split; [intros next; now apply Htruthy|].
    rewrite Hq. split; [reflexivity|].
    unfold same_but_user, attach_user, set_user. simpl. tauto.
  - apply Hiff in H. rewrite (Hfalsy H). reflexivity.
  - apply Hiff in H. rewrite (Hfalsy H). reflexivity.
Qed.

(** C6: both variants of authorize answer 401 without calling [next]
    exactly when the [user] query parameter is absent or empty, and
    otherwise attach [req.user], which is [{ name: user, id: 3 }] when
    [next] starts, and call [next] without sending anything. *)
Theorem authorize_401_iff_unauthenticated (w : world) :
  res w = [] ->
  authorize_contract MiddlewareBasic.authorize w
  /\ authorize_contract MiddlewareExplained.authorize w.
Proof.
  intros Hres. split.
  - eapply authorize_contract_intro; [exact Hres| |].
    + intros Hu next. now apply authorize_basic_falsy.
    + intros Hu next. now apply authorize_basic_truthy.
  - eapply authorize_contract_intro; [exact Hres| |].
    + intros Hu next. now apply authorize_explained_falsy.
    + intros Hu next. now apply authorize_explained_truthy.
Qed.

Lemma authorize_401_iff_unauthenticated_witness :
  let anonymous := fresh_world (request_of "GET" "/about" ∅ ∅ JS.VUndefined) in
  let john := fresh_world (request_of "GET" "/about?user=john" ∅
                             {[ "user" := JS.QStr "john" ]} JS.VUndefined) in
  (authorize_contract MiddlewareBasic.authorize anonymous
   /\ authorize_contract MiddlewareExplained.authorize anonymous)
  /\ req_user (snd (MiddlewareBasic.authorize (ret tt) john))
     = JS.VObj [("name", JS.VStr "john"); ("id", JS.VNum (JS.of_Z 3))]
  /\ req_user (snd (MiddlewareExplained.authorize (ret tt) john))
     = JS.VObj [("name", JS.VStr "john"); ("id", JS.VNum (JS.of_Z 3))]
  /\ req_user john = JS.VUndefined.
Proof.
  intros anonymous john.
  split; [apply authorize_401_iff_unauthenticated; reflexivity|].
  destruct (authorize_401_iff_unauthenticated john eq_refl) as [Hbasic Hexplained].
  destruct Hbasic as (_ & _ & _ & _ & Hb & _).
  destruct Hexplained as (_ & _ & _ & _ & He & _).
  destruct (Hb (JS.QStr "john")) as (wb & Hrunb & Huserb & _);
    [vm_compute; reflexivity | discriminate |].
  destruct (He (JS.QStr "john")) as (we & Hrune & Husere & _);
    [vm_compute; reflexivity | discriminate |].
  rewrite (Hrunb (ret tt)), (Hrune (ret tt)).
  repeat split; [exact Huserb | exact Husere].
Defined.

(** The two requests the explained server prints at start-up. *)
Example authorize_sample :
  let anonymous := fresh_world (request_of "GET" "/" ∅ ∅ JS.VUndefined) in
  let john := fresh_world (request_of "GET" "/?user=john" ∅
                             {[ "user" := JS.QStr "john" ]} JS.VUndefined) in
  status_of (run (MiddlewareExplained.logger
                    (MiddlewareExplained.authorize MiddlewareExplained.home))
                 anonymous) = Some 401
  /\ status_of (run (MiddlewareExplained.logger
                       (MiddlewareExplained.authorize MiddlewareExplained.home))
                    john) = Some 200
  /\ user (req (snd (MiddlewareExplained.authorize (ret tt) john)))
     = JS.VObj [("name", JS.VStr "john"); ("id", JS.VNum (JS.of_Z 3))].
Proof. vm_compute. repeat split; reflexivity. Qed.

(** ** Bodies without a name *)

(** C8: a parsed body without a truthy [name] is answered with 400 by
    createPerson, by createPersonPostman and by the login form handler. *)
Theorem missing_name_is_400 (w : world) (name : JS.value) :
  res w = [] ->
  JS.name_of (body (req w)) = Some name ->
  JS.truthy name = false ->
  status_of (run People.createPerson w) = Some 400
  /\ status_of (run People.createPersonPostman w) = Some 400
  /\ status_of (run Auth.login w) = Some 400.
Proof.
  intros Hres Hbody Hname. fresh_response w Hres.
  unfold People.createPerson, People.createPersonPostman, Auth.login,
    People.destructure_name.
  unfold_calls. simpl. rewrite Hbody. simpl. rewrite Hname.
  repeat split; reflexivity.
Qed.

Lemma missing_name_is_400_witness :
  let w := fresh_world
             (request_of "POST" "/api/people" ∅ ∅
                (JS.VObj [("name", JS.VStr EmptyString); ("age", JS.VNum (JS.of_Z 30))])) in
  status_of (run People.createPerson w) = Some 400
  /\ status_of (run People.createPersonPostman w) = Some 400
  /\ status_of (run Auth.login w) = Some 400.
Proof.
  apply (missing_name_is_400 _ (JS.VStr EmptyString)); reflexivity.
Defined.

(** Without a parsed body the destructuring itself throws, and the three
    handlers send nothing. *)
Lemma undefined_body_throws (w : world) :
  body (req w) = JS.VUndefined ->
  (exists e, fst (People.createPerson w) = Throw e)
  /\ (exists e, fst (People.createPersonPostman w) = Throw e)
  /\ (exists e, fst (Auth.login w) = Throw e)
  /\ run People.createPerson w = res w
  /\ run People.createPersonPostman w = res w
  /\ run Auth.login w = res w.
Proof.
  intros Hbody.
  unfold People.createPerson, People.createPersonPostman, Auth.login,
    People.destructure_name.
  unfold_calls. simpl. rewrite Hbody. simpl.
  repeat split; eexists; reflexivity.
Qed.

(** ** The people array *)

(** C9: for a body with a truthy [name], createPerson answers 201 with
    [{success: true, person: name}], leaves the people array as it was, and
    a later getPeople answers as it would have before the POST. *)
Theorem createPerson_does_not_store (w : world) (name : JS.value) :
  res w = [] ->
  JS.name_of (body (req w)) = Some name ->
  JS.truthy name = true ->
  response_of (run People.createPerson w)
  = Some (201, Data (JS.VObj [("success", JS.VBool true); ("person", name)]))
  /\ people (snd (People.createPerson w)) = people w
  /\ forall r,
       run People.getPeople (next_request r (snd (People.createPerson w)))
       = run People.getPeople (next_request r w)
       /\ response_of (run People.getPeople (next_request r w))
          = Some (200, Data (JS.VObj [("success", JS.VBool true);
                                      ("people", JS.VArr (map person_json (people w)))])).
Proof.
  intros Hres Hbody Hname. fresh_response w Hres.
  unfold People.createPerson, People.getPeople, People.destructure_name,
    next_request.
  unfold_calls. simpl. rewrite Hbody. simpl. rewrite Hname.
  repeat split; reflexivity.
Qed.

Lemma createPerson_does_not_store_witness :
  let w := fresh_world (request_of "POST" "/api/people" ∅ ∅
                          (JS.VObj [("name", JS.VStr "anna")])) in
  response_of (run People.createPerson w)
  = Some (201, Data (JS.VObj [("success", JS.VBool true);
                              ("person", JS.VStr "anna")]))
  /\ people (snd (People.createPerson w)) = people w.
Proof.
  intros w.
  pose proof (createPerson_does_not_store w (JS.VStr "anna")
                eq_refl eq_refl eq_refl) as [H1 [H2 _]].
  split; [exact H1 | exact H2].
Defined.

(** C10: reached with a non-empty [personId], deletePerson answers 404
    when no person has that id and 200 otherwise, and never 400. *)
Theorem deletePerson_never_400 (w : world) (personId : string) :
  res w = [] ->
  params (req w) !! "personId" = Some personId ->
  personId <> EmptyString ->
  let found := List.find (People.has_id (Some personId)) (people w) in
  status_of (run People.deletePerson w)
  = Some (match found with Some _ => 200 | None => 404 end)
  /\ (status_of (run People.deletePerson w) = Some 404
      \/ status_of (run People.deletePerson w) = Some 200)
  /\ status_of (run People.deletePerson w) <> Some 400.
Proof.
  intros Hres Hparam Hne found.
  assert (Hstatus : status_of (run People.deletePerson w)
                    = Some (match found with Some _ => 200 | None => 404 end)).
  { subst found. fresh_response w Hres.
    unfold People.deletePerson. unfold_calls. simpl. rewrite Hparam.
    destruct personId as [|c s]; [now destruct Hne|]. simpl.
    now destruct (List.find _ _). }
  rewrite Hstatus. split; [reflexivity|].
  destruct found; split; auto; discriminate.
Qed.

Lemma deletePerson_never_400_witness :
  let w := fresh_world (request_of "DELETE" "/api/people/2"
                          {[ "personId" := "2" ]} ∅ JS.VUndefined) in
  status_of (run People.deletePerson w) = Some 200.
Proof.
  intros w.
  refine (proj1 (deletePerson_never_400 w "2" _ _ _)).
  - reflexivity.
  - vm_compute. reflexivity.
  - discriminate.
Defined.

(** The 400 branch itself: it is what an empty or missing [personId]
    would get. *)
Lemma deletePerson_400_needs_empty_id (w : world) :
  res w = [] ->
  (status_of (run People.deletePerson w) = Some 400
   <-> People.param_truthy (params (req w) !! "personId") = false).
Proof.
  intros Hres. fresh_response w Hres.
  unfold People.deletePerson. unfold_calls. simpl.
  destruct (People.param_truthy _); simpl.
  - destruct (List.find _ _); simpl; split; discriminate.
  - split; reflexivity.
Qed.

(** The three operations touch nothing but the response object. *)
Lemma people_mutations_only_respond (w : world) :
  only_responds w (snd (People.updatePerson w))
  /\ only_responds w (snd (People.deletePerson w))
  /\ only_responds w (snd (People.createPersonPostman w)).
Proof.
  destruct w as [catalogue folk r tr].
  unfold only_responds, People.updatePerson, People.deletePerson,
    People.createPersonPostman, People.destructure_name.
  unfold_calls. simpl.
  destruct (People.param_truthy (params r !! "personId")); simpl;
    destruct (JS.truthy (People.optional_name (body r))); simpl;
    destruct (List.find (People.has_id (params r !! "personId")) folk); simpl;
    (destruct (JS.name_of (body r)) as [name|]; simpl;
     [destruct (JS.truthy name); simpl|]);
    repeat match goal with
           | |- context [headers_sent ?t] => destruct (headers_sent t); simpl
           end;
    repeat split; reflexivity.
Qed.

(** C5: updatePerson, deletePerson and createPersonPostman leave the shared
    people array (and everything but the response object) as it was, and
    what they send on success is a new array: the people mapped, filtered,
    or followed by the new record. *)
Theorem people_mutations_build_new_arrays (w : world) (name : JS.value) :
  res w = [] ->
  JS.truthy name = true ->
  (only_responds w (snd (People.updatePerson w))
   /\ only_responds w (snd (People.deletePerson w))
   /\ only_responds w (snd (People.createPersonPostman w)))
  /\ (JS.name_of (body (req w)) = Some name ->
      response_of (run People.createPersonPostman w)
      = Some (201,
              Data (JS.VObj
                      [("success", JS.VBool true);
                       ("data",
                        JS.VArr
                          (map person_json (people w)
                           ++ [JS.VObj
                                 [("name", name);
                                  ("id", JS.VNum (JS.of_Z (Z.of_nat (length (people w)) + 1)))]]))])))
  /\ (forall personId,
         params (req w) !! "personId" = Some personId ->
         personId <> EmptyString ->
         List.find (People.has_id (Some personId)) (people w) <> None ->
         (People.optional_name (body (req w)) = name ->
          response_of (run People.updatePerson w)
          = Some (200,
                  Data (JS.VObj
                          [("success", JS.VBool true);
                           ("data",
                            JS.VArr
                              (map (fun person =>
                                      if People.has_id (Some personId) person
                                      then JS.VObj [("id", JS.VNum (person_id person));
                                                    ("name", name)]
                                      else person_json person)
                                   (people w)))])))
         /\ response_of (run People.deletePerson w)
            = Some (200,
                    Data (JS.VObj
                            [("success", JS.VBool true);
                             ("data",
                              JS.VArr
                                (map person_json
                                     (List.filter
                                        (fun person =>
                                           negb (People.has_id (Some personId) person))
                                        (people w))))]))).
Proof.
  intros Hres Hname. split; [apply people_mutations_only_respond|].
  fresh_response w Hres. split.
  - intros Hbody. unfold People.createPersonPostman, People.destructure_name.
    unfold_calls. simpl. rewrite Hbody. simpl. rewrite Hname. reflexivity.
  - intros personId Hparam Hne Hfound.
    destruct personId as [|c s]; [now destruct Hne|].
    split.
    + intros Hbody. unfold People.updatePerson. unfold_calls. simpl.
      rewrite Hparam, Hbody, Hname. simpl.
      destruct (List.find _ _); [reflexivity|now destruct Hfound].
    + unfold People.deletePerson. unfold_calls. simpl.
      rewrite Hparam. simpl.
      destruct (List.find _ _); [reflexivity|now destruct Hfound].
Qed.

Lemma people_mutations_build_new_arrays_witness :
  let w := fresh_world (request_of "PUT" "/api/people/2"
                          {[ "personId" := "2" ]} ∅
                          (JS.VObj [("name", JS.VStr "paul")])) in
  people (snd (People.updatePerson w)) = sample_people
  /\ response_of (run People.updatePerson w)
     = Some (200,
             Data (JS.VObj
                     [("success", JS.VBool true);
                      ("data",
                       JS.VArr
                         [JS.VObj [("id", JS.VNum (JS.of_Z 1)); ("name", JS.VStr "john")];
                          JS.VObj [("id", JS.VNum (JS.of_Z 2)); ("name", JS.VStr "paul")];
                          JS.VObj [("id", JS.VNum (JS.of_Z 3)); ("name", JS.VStr "susan")]])])).
Proof.
  intros w.
  pose proof (people_mutations_build_new_arrays w (JS.VStr "paul")
                eq_refl eq_refl) as [[[_ [Hpeople _]] _] [_ Hsent]].
  split; [exact Hpeople|].
  refine (proj1 (Hsent "2"%string _ _ _) _).
  - vm_compute. reflexivity.
  - discriminate.
  - vm_compute. discriminate.
  - reflexivity.
Defined.

(** The same store seen through the three operations on the sample
    people: none of them changes what getPeople answers next. *)
Example people_sample_unchanged :
  let put := fresh_world (request_of "PUT" "/api/people/2"
                            {[ "personId" := "2" ]} ∅
                            (JS.VObj [("name", JS.VStr "paul")])) in
  let del := fresh_world (request_of "DELETE" "/api/people/2"
                            {[ "personId" := "2" ]} ∅ JS.VUndefined) in
  let post := fresh_world (request_of "POST" "/api/people/postman" ∅ ∅
                             (JS.VObj [("name", JS.VStr "paul")])) in
  let get := request_of "GET" "/api/people" ∅ ∅ JS.VUndefined in
  run People.getPeople (next_request get (snd (People.updatePerson put)))
  = run People.getPeople (fresh_world get)
  /\ run People.getPeople (next_request get (snd (People.deletePerson del)))
     = run People.getPeople (fresh_world get)
  /\ run People.getPeople (next_request get (snd (People.createPersonPostman post)))
     = run People.getPeople (fresh_world get).
Proof. vm_compute. repeat split; reflexivity. Qed.

(** ** One response per request *)

Create HintDb handlers.
#[local] Hint Unfold
  HttpBasics.server HttpApp.server
  ExpressApp.home ExpressApp.about ExpressApp.notFound
  StaticApp.home StaticApp.notFound AllStatic.notFound
  BasicJson.home BasicJson.notFound
  ProductsBasic.home ProductsBasic.listProducts ProductsBasic.getProduct
  ProductsBasic.getReview ProductsBasic.queryProducts ProductsBasic.about
  ProductsBasic.notFound
  ProductsExplained.home ProductsExplained.listProducts
  ProductsExplained.getProduct ProductsExplained.getReview
  ProductsExplained.queryProducts ProductsExplained.about
  ProductsExplained.notFound
  MiddlewareBasic.home MiddlewareBasic.about MiddlewareBasic.productsPage
  MiddlewareBasic.customersPage MiddlewareBasic.logger MiddlewareBasic.authorize
  MiddlewareExplained.home MiddlewareExplained.about
  MiddlewareExplained.productsPage MiddlewareExplained.customersPage
  MiddlewareExplained.errorHandler MiddlewareExplained.notFound
  MiddlewareExplained.logger MiddlewareExplained.authorize
  People.getPeople People.createPerson People.createPersonPostman
  People.updatePerson People.deletePerson People.destructure_name
  Auth.login : handlers.

#[local] Hint Unfold res_status_value js_or : handlers.

(** Case analysis on the tests a handler makes, then evaluation of the
    log. *)
Ltac split_tests :=
  repeat match goal with
         | |- context [JS.name_of ?b] => destruct (JS.name_of b); simpl
         | |- context [JS.truthy (err_status ?e)] =>
             destruct (JS.truthy (err_status e)); simpl
         | |- context [err_status ?e] => destruct (err_status e); simpl
         | |- context [integer_of ?n] => destruct (integer_of n); simpl
         | |- context [ProductsExplained.search_filter ?s ?l] =>
             destruct (ProductsExplained.search_filter s l); simpl
         | |- context [List.find ?f ?l] => destruct (List.find f l); simpl
         | |- context [if ?c then _ else _] => destruct c; simpl
         | |- context [match ?x with _ => _ end] => destruct x; simpl
         end.

Ltac check_handler :=
  let w := fresh "w" in
  let Hres := fresh "Hres" in
  intros w Hres; fresh_response w Hres;
  autounfold with handlers; unfold_calls; simpl;
  split_tests; (split; [reflexivity | unfold responses; simpl; lia]).

Lemma route_handlers_send_at_most_once (err : error)
  (homePage homePageStyle homePageLogo homePageAppJs : string) :
  Forall sends_at_most_once
         (route_handlers err homePage homePageStyle homePageLogo homePageAppJs).
Proof.
  unfold route_handlers.
  repeat (constructor; [check_handler|]). constructor.
Qed.

Lemma logger_basic_run (next : M unit) (w : world) :
  MiddlewareBasic.logger next w = next w.
Proof. reflexivity. Qed.

Lemma logger_explained_run (next : M unit) (w : world) :
  MiddlewareExplained.logger next w = next w.
Proof. reflexivity. Qed.

Lemma attach_user_res (v : JS.value) (w : world) :
  res (attach_user v w) = res w.
Proof. reflexivity. Qed.

Lemma middleware_send_at_most_once (next : M unit) :
  sends_at_most_once next ->
  Forall (fun mw => sends_at_most_once (mw next)) middleware.
Proof.
  intros Hnext. unfold middleware.
  repeat (constructor; [intros w Hres|]); [| | | |constructor].
  - unfold run. rewrite logger_basic_run. now apply Hnext.
  - destruct (JS.qtruthy (query (req w) !! "user")) eqn:Hu.
    + unfold run. rewrite authorize_basic_truthy by exact Hu.
      apply Hnext. now rewrite attach_user_res.
    + unfold run. rewrite authorize_basic_falsy by assumption.
      unfold respond. simpl. rewrite Hres. split; [reflexivity|].
      unfold responses. simpl. lia.
  - unfold run. rewrite logger_explained_run. now apply Hnext.
  - destruct (JS.qtruthy (query (req w) !! "user")) eqn:Hu.
    + unfold run. rewrite authorize_explained_truthy by exact Hu.
      apply Hnext. now rewrite attach_user_res.
    + unfold run. rewrite authorize_explained_falsy by assumption.
      unfold respond. simpl. rewrite Hres. split; [reflexivity|].
      unfold responses. simpl. lia.
Qed.

(** C4: every handler of the repository, started on a fresh response
    object, completes at most one response and makes no response call after
    completing it; and so does every middleware, given that the rest of the
    chain it hands over to does. *)
Theorem single_response_per_request (err : error)
  (homePage homePageStyle homePageLogo homePageAppJs : string)
  (next : M unit) :
  sends_at_most_once next ->
  Forall sends_at_most_once
         (route_handlers err homePage homePageStyle homePageLogo homePageAppJs)
  /\ Forall (fun mw => sends_at_most_once (mw next)) middleware.
Proof.
  intros Hnext. split.
  - apply route_handlers_send_at_most_once.
  - now apply middleware_send_at_most_once.
Qed.

Lemma single_response_per_request_witness :
  Forall sends_at_most_once
         (route_handlers {| err_status := JS.VUndefined; err_message := JS.VUndefined |}
                         "<html></html>" "body {}" "<svg/>" "void 0")
  /\ Forall (fun mw => sends_at_most_once (mw MiddlewareBasic.home)) middleware.
Proof.
  apply single_response_per_request.
  intros w Hres. destruct w as [catalogue folk r tr]. simpl in Hres. subst tr.
  vm_compute. split; [reflexivity | repeat constructor].
Defined.

(** The two middleware chains as the applications register them, in front
    of any of their pages. *)
Corollary middleware_chains_send_at_most_once (page : M unit) :
  sends_at_most_once page ->
  sends_at_most_once (MiddlewareBasic.logger (MiddlewareBasic.authorize page))
  /\ sends_at_most_once
       (MiddlewareExplained.logger (MiddlewareExplained.authorize page)).
Proof.
  intros Hpage.
  pose proof (middleware_send_at_most_once page Hpage) as Hmw.
  unfold middleware in Hmw.
  inversion Hmw as [|? ? _ H1]; subst. inversion H1 as [|? ? Hb H2]; subst.
  inversion H2 as [|? ? _ H3]; subst. inversion H3 as [|? ? He _]; subst.
  split; intros w Hres; unfold run.
  - rewrite logger_basic_run. now apply Hb.
  - rewrite logger_explained_run. now apply He.
Qed.

(** What the notes warn against: the answer sent twice because the
    [return] after the first one is missing.  The second call throws and
    the log breaks the discipline. *)
Example missing_return_sends_twice :
  let careless : M unit :=
    (res_status 200 >> res_json (JS.VObj [("data", JS.VArr [])])) >>
    (res_status 200 >> res_json (JS.VArr [])) in
  let w := fresh_world (request_of "GET" "/api/v1/query" ∅ ∅ JS.VUndefined) in
  fst (careless w) = Throw ERR_HTTP_HEADERS_SENT
  /\ single_response (run careless w) = false
  /\ responses (run careless w) = 2%nat.
Proof. vm_compute. repeat split; reflexivity. Qed.

(* ================================================================== *)
(** * Further properties of the handlers *)
(* ================================================================== *)

(** ** Product lookup *)

Lemma find_first_match {A : Type} (f : A -> bool) (l : list A) (a : A) :
  List.find f l = Some a ->
  exists before after,
    l = before ++ a :: after /\ f a = true
    /\ forall b, In b before -> f b = false.
Proof.
  induction l as [|x l IH]; simpl; [discriminate|].
  destruct (f x) eqn:Hx.
  - intros [= ->]. exists [], l. repeat split; [exact Hx|]. intros b [].
  - intros Hfind. destruct (IH Hfind) as (before & after & -> & Ha & Hb).
    exists (x :: before), after. repeat split; [exact Ha|].
    intros b [<- | Hin]; [exact Hx | now apply Hb].
Qed.

(** X1: when the product id parses to a number, the basic and the explained
    variant give the same answer: 200 with the first product of the
    catalogue whose id equals that number, or 404 when there is none. *)
Theorem getProduct_parsed_id (w : world) :
  res w = [] ->
  JS.isNaN (JS.Number_opt (params (req w) !! "productId")) = false ->
  let n := JS.Number_opt (params (req w) !! "productId") in
  status_of (run ProductsBasic.getProduct w)
  = status_of (run ProductsExplained.getProduct w)
  /\ match List.find (fun p => JS.strict_eq (product_id p) n) (products w) with
     | Some p =>
         response_of (run ProductsBasic.getProduct w)
         = Some (200, Data (product_json p))
         /\ response_of (run ProductsExplained.getProduct w)
            = Some (200, Data (product_json p))
         /\ exists before after,
             products w = before ++ p :: after
             /\ JS.strict_eq (product_id p) n = true
             /\ forall q, In q before -> JS.strict_eq (product_id q) n = false
     | None =>
         status_of (run ProductsBasic.getProduct w) = Some 404
         /\ status_of (run ProductsExplained.getProduct w) = Some 404
     end.
Proof.
  intros Hres Hnum n. subst n.
  pose proof (find_first_match
                (fun p => JS.strict_eq (product_id p)
                            (JS.Number_opt (params (req w) !! "productId")))
                (products w)) as Hfirst.
  fresh_response w Hres.
  unfold ProductsBasic.getProduct, ProductsExplained.getProduct.
  unfold_calls. simpl. rewrite Hnum.
  destruct (List.find _ products0) as [p|]; simpl.
  - repeat split; try reflexivity. now apply Hfirst.
  - repeat split; reflexivity.
Qed.

Lemma getProduct_parsed_id_witness :
  let w := fresh_world (request_of "GET" "/api/products/3"
                          {[ "productId" := "3" ]} ∅ JS.VUndefined) in
  status_of (run ProductsBasic.getProduct w)
  = status_of (run ProductsExplained.getProduct w).
Proof.
  intros w.
  refine (proj1 (getProduct_parsed_id w _ _)); vm_compute; reflexivity.
Defined.

(** A string of white space only is the number zero. *)
Lemma drop_whitespace_all (l : list ascii) :
  forallb JS.is_whitespace l = true -> JS.drop_whitespace l = [].
Proof.
  induction l as [|c l IH]; simpl; [reflexivity|].
  destruct (JS.is_whitespace c); simpl; [exact IH | discriminate].
Qed.

Lemma Number_whitespace (s : string) :
  forallb JS.is_whitespace (list_ascii_of_string s) = true ->
  JS.Number s = S754_zero false.
Proof.
  intros Hws. unfold JS.Number, JS.trim.
  now rewrite (drop_whitespace_all _ Hws).
Qed.

(** X2: a product id made of white space only (such as [%20]) is not
    rejected by the explained variant: it is looked up as the number 0, and
    answered with 404 when no product has the id 0. *)
Theorem getProduct_blank_id (w : world) (productId : string) :
  res w = [] ->
  params (req w) !! "productId" = Some productId ->
  forallb JS.is_whitespace (list_ascii_of_string productId) = true ->
  status_of (run ProductsExplained.getProduct w) <> Some 400
  /\ ((forall p, In p (products w) ->
                 JS.strict_eq (product_id p) JS.zero = false) ->
      status_of (run ProductsExplained.getProduct w) = Some 404).
Proof.
  intros Hres Hparam Hws.
  pose proof (Number_whitespace productId Hws) as Hzero.
  fresh_response w Hres.
  unfold ProductsExplained.getProduct. unfold_calls. simpl.
  rewrite Hparam. simpl. rewrite Hzero. simpl. split.
  - destruct (List.find _ products0); simpl; discriminate.
  - intros Hnone. rewrite find_no_match by exact Hnone. reflexivity.
Qed.

Lemma getProduct_blank_id_witness :
  let w := fresh_world (request_of "GET" "/api/products/%20"
                          {[ "productId" := " " ]} ∅ JS.VUndefined) in
  status_of (run ProductsExplained.getProduct w) = Some 404.
Proof.
  intros w.
  refine (proj2 (getProduct_blank_id w " " _ _ _) _).
  - reflexivity.
  - vm_compute. reflexivity.
  - vm_compute. reflexivity.
  - intros p Hp. vm_compute in Hp.
    repeat (destruct Hp as [<- | Hp]; [vm_compute; reflexivity|]).
    destruct Hp.
Defined.

(** ** The query route *)

Lemma sublist_List_filter {A : Type} (f : A -> bool) (l : list A) :
  List.filter f l `sublist_of` l.
Proof.
  induction l as [|a l IH]; simpl; [constructor|].
  destruct (f a); now constructor.
Qed.

Lemma slice0_sublist {A : Type} (l : list A) (n : JS.number) :
  JS.slice0 l n `sublist_of` l.
Proof. unfold JS.slice0. apply sublist_take. Qed.

Lemma search_basic_sublist (search : option JS.qvalue) (l : list product) :
  ProductsBasic.search_filter search l `sublist_of` l.
Proof.
  unfold ProductsBasic.search_filter.
  destruct (JS.qtruthy search); [apply sublist_List_filter | reflexivity].
Qed.

Lemma limit_basic_sublist (limit : option JS.qvalue) (l : list product) :
  ProductsBasic.limit_filter limit l `sublist_of` l.
Proof.
  unfold ProductsBasic.limit_filter.
  destruct (JS.qtruthy limit); [apply slice0_sublist | reflexivity].
Qed.

Lemma limit_explained_sublist (limit : option JS.qvalue) (l : list product) :
  ProductsExplained.limit_filter limit l `sublist_of` l.
Proof.
  unfold ProductsExplained.limit_filter.
  destruct (JS.qtruthy limit); [|reflexivity].
  destruct (_ && _); [apply slice0_sublist | reflexivity].
Qed.

Lemma search_explained_cases (search : option JS.qvalue) (l : list product) :
  (forall a, search <> Some (JS.QArr a)) ->
  exists found, ProductsExplained.search_filter search l = Return found
                /\ found `sublist_of` l.
Proof.
  intros Hstr. unfold ProductsExplained.search_filter.
  destruct search as [[s|a]|]; simpl.
  - destruct (JS.nonempty s); eexists; split; try reflexivity.
    apply sublist_List_filter.
  - now destruct (Hstr a).
  - eexists; split; reflexivity.
Qed.

(** X3: the query route of either variant always answers 200, and the
    products it lists are entries of the catalogue in catalogue order: the
    empty-result message when there are none, the list otherwise (with its
    length as [count] in the explained variant).  The explained variant
    needs [search] to be absent or a single string; given a repeated
    [search] it throws before any call on the response. *)
Theorem queryProducts_lists_catalogue_entries (w : world) :
  res w = [] ->
  (exists listed,
      listed `sublist_of` products w
      /\ ProductsBasic.queryProducts w
         = (Return tt,
            respond
              [Status 200;
               Json (match listed with
                     | [] => JS.VObj [("searchSuccess", JS.VBool true);
                                      ("data", JS.VArr [])]
                     | _ :: _ => JS.VArr (map product_json listed)
                     end)] w))
  /\ ((forall a, query (req w) !! "search" <> Some (JS.QArr a)) ->
      exists listed,
        listed `sublist_of` products w
        /\ ProductsExplained.queryProducts w
           = (Return tt,
              respond
                [Status 200;
                 Json (match listed with
                       | [] =>
                           JS.VObj [("success", JS.VBool true);
                                    ("message", JS.VStr "No products matched your search criteria");
                                    ("data", JS.VArr [])]
                       | _ :: _ =>
                           JS.VObj [("success", JS.VBool true);
                                    ("count", JS.VNum (JS.of_Z (Z.of_nat (length listed))));
                                    ("data", JS.VArr (map product_json listed))]
                       end)] w))
  /\ (forall a, query (req w) !! "search" = Some (JS.QArr a) ->
                exists e, ProductsExplained.queryProducts w = (Throw e, w)).
Proof.
  intros Hres. fresh_response w Hres. repeat split.
  - exists (ProductsBasic.limit_filter (query r !! "limit")
              (ProductsBasic.search_filter (query r !! "search") products0)).
    split.
    + etransitivity; [apply limit_basic_sublist | apply search_basic_sublist].
    + unfold ProductsBasic.queryProducts, respond. unfold_calls. simpl.
      now destruct (ProductsBasic.limit_filter _ _).
  - intros Hstr.
    destruct (search_explained_cases (query r !! "search") products0 Hstr)
      as (found & Hfound & Hsub).
    exists (ProductsExplained.limit_filter (query r !! "limit") found).
    split.
    + etransitivity; [apply limit_explained_sublist | exact Hsub].
    + unfold ProductsExplained.queryProducts, respond. unfold_calls. simpl.
      rewrite Hfound.
      now destruct (ProductsExplained.limit_filter _ _).
  - intros a Ha.
    unfold ProductsExplained.queryProducts. unfold_calls. simpl.
    rewrite Ha. simpl. eexists. reflexivity.
Qed.

Lemma queryProducts_lists_catalogue_entries_witness :
  let w := fresh_world (request_of "GET" "/api/v1/query?search=sofa" ∅
                          {[ "search" := JS.QStr "sofa" ]} JS.VUndefined) in
  exists listed,
    listed `sublist_of` products w
    /\ ProductsBasic.queryProducts w
       = (Return tt,
          respond
            [Status 200;
             Json (match listed with
                   | [] => JS.VObj [("searchSuccess", JS.VBool true);
                                    ("data", JS.VArr [])]
                   | _ :: _ => JS.VArr (map product_json listed)
                   end)] w).
Proof.
  intros w.
  refine (proj1 (queryProducts_lists_catalogue_entries w _)). reflexivity.
Defined.

(** ** The limit *)

Lemma firstn_min_length {A : Type} (l : list A) (z : Z) :
  0 <= z ->
  firstn (Z.to_nat (Z.min z (Z.of_nat (length l)))) l = firstn (Z.to_nat z) l.
Proof.
  intros Hz. destruct (Z.le_ge_cases z (Z.of_nat (length l))) as [Hle | Hge].
  - now rewrite Z.min_l.
  - rewrite Z.min_r by exact Hge. rewrite Nat2Z.id.
    rewrite firstn_all. symmetry. apply firstn_all2. lia.
Qed.

(** A number that truncates to a positive integer is a positive finite
    number. *)
Lemma truncates_positive (n : JS.number) (z : Z) :
  JS.ToIntegerOrInfinity n = JS.Integer z -> 0 < z ->
  JS.isNaN n = false /\ JS.gt n JS.zero = true.
Proof.
  destruct n as [s|s| |s m e]; simpl.
  - intros [= <-]. lia.
  - destruct s; discriminate.
  - intros [= <-]. lia.
  - intros [= <-] Hz. split; [reflexivity|].
    destruct s; [|reflexivity].
    exfalso. destruct (Z.leb_spec 0 e) as [He | He].
    + assert (0 <= 2 ^ e) by (apply Z.pow_nonneg; lia). nia.
    + assert (0 < 2 ^ (- e)) by (apply Z.pow_pos_nonneg; lia).
      assert (0 <= Z.pos m / 2 ^ (- e)) by (apply Z.div_pos; lia).
      lia.
Qed.

Lemma limit_truthy_of_number (limit : option JS.qvalue) :
  JS.gt (JS.Number_q limit) JS.zero = true -> JS.qtruthy limit = true.
Proof.
  destruct limit as [[[|c s]|a]|]; simpl; try reflexivity; discriminate.
Qed.

(** X4: a limit whose number truncates to a positive integer [z] cuts the
    list to its first [z] entries, in the basic and in the explained variant
    alike, and leaves a shorter list as it is. *)
Theorem limit_takes_first (limit : option JS.qvalue) (z : Z) (l : list product) :
  JS.ToIntegerOrInfinity (JS.Number_q limit) = JS.Integer z ->
  0 < z ->
  ProductsExplained.limit_filter limit l = firstn (Z.to_nat z) l
  /\ ProductsBasic.limit_filter limit l = firstn (Z.to_nat z) l
  /\ (length (ProductsExplained.limit_filter limit l) <= Z.to_nat z)%nat
  /\ ((length l <= Z.to_nat z)%nat -> ProductsExplained.limit_filter limit l = l).
Proof.
  intros Hint Hz.
  destruct (truncates_positive _ _ Hint Hz) as [Hnan Hgt].
  pose proof (limit_truthy_of_number limit Hgt) as Htruthy.
  assert (Hslice : JS.slice0 l (JS.Number_q limit) = firstn (Z.to_nat z) l).
  { unfold JS.slice0. rewrite Hint.
    destruct (Z.ltb_spec z 0); [lia|]. apply firstn_min_length. lia. }
  unfold ProductsExplained.limit_filter, ProductsBasic.limit_filter.
  rewrite Htruthy, Hnan, Hgt. simpl. rewrite Hslice.
  repeat split.
  - rewrite length_firstn. lia.
  - intros Hshort. now apply firstn_all2.
Qed.

Lemma limit_takes_first_witness :
  ProductsExplained.limit_filter (Some (JS.QStr "2.9")) sample_products
  = firstn 2 sample_products.
Proof.
  refine (proj1 (limit_takes_first (Some (JS.QStr "2.9")) 2 sample_products _ _)).
  - vm_compute. reflexivity.
  - lia.
Defined.

(** X5: the explained variant lets through a limit that is positive but
    below one (such as [0.5]): the guard accepts it, [slice] truncates it
    to zero, and the answer is the empty-result message whatever the
    catalogue holds. *)
Theorem limit_below_one_empties (w : world) :
  res w = [] ->
  (forall a, query (req w) !! "search" <> Some (JS.QArr a)) ->
  JS.gt (JS.Number_q (query (req w) !! "limit")) JS.zero = true ->
  JS.ToIntegerOrInfinity (JS.Number_q (query (req w) !! "limit")) = JS.Integer 0 ->
  run ProductsExplained.queryProducts w
  = [Status 200;
     Json (JS.VObj [("success", JS.VBool true);
                    ("message", JS.VStr "No products matched your search criteria");
                    ("data", JS.VArr [])])].
Proof.
  intros Hres Hstr Hgt Hint.
  pose proof (limit_truthy_of_number _ Hgt) as Htruthy.
  assert (Hnan : JS.isNaN (JS.Number_q (query (req w) !! "limit")) = false).
  { destruct (JS.Number_q _); try reflexivity. discriminate Hgt. }
  fresh_response w Hres.
  destruct (search_explained_cases (query r !! "search") products0 Hstr)
    as (found & Hfound & _).
  unfold ProductsExplained.queryProducts. unfold_calls. simpl.
  rewrite Hfound. unfold ProductsExplained.limit_filter.
  rewrite Htruthy, Hnan, Hgt. simpl.
  unfold JS.slice0. rewrite Hint. simpl.
  replace (Z.min 0 (Z.of_nat (length found))) with 0 by lia.
  reflexivity.
Qed.

Lemma limit_below_one_empties_witness :
  let w := fresh_world (request_of "GET" "/api/v1/query?limit=0.5" ∅
                          {[ "limit" := JS.QStr "0.5" ]} JS.VUndefined) in
  run ProductsExplained.queryProducts w
  = [Status 200;
     Json (JS.VObj [("success", JS.VBool true);
                    ("message", JS.VStr "No products matched your search criteria");
                    ("data", JS.VArr [])])].
Proof.
  intros w. apply limit_below_one_empties.
  - reflexivity.
  - intros a. vm_compute. discriminate.
  - vm_compute. reflexivity.
  - vm_compute. reflexivity.
Defined.

(** ** Empty parameters, and what the search selects *)

(** X6: a parameter given without a value ([?search=] or [?limit=]) is the
    empty string, and either variant answers as if the parameter were not
    there. *)
Theorem empty_parameters_ignored (w : world) (key : string) :
  key = "search" \/ key = "limit" ->
  let q := query (req w) in
  run ProductsBasic.queryProducts
      (with_query (<[key := JS.QStr EmptyString]> q) w)
  = run ProductsBasic.queryProducts (with_query (delete key q) w)
  /\ run ProductsExplained.queryProducts
         (with_query (<[key := JS.QStr EmptyString]> q) w)
     = run ProductsExplained.queryProducts (with_query (delete key q) w).
Proof.
  intros Hkey q. subst q. destruct w as [catalogue folk r tr].
  unfold ProductsBasic.queryProducts, ProductsExplained.queryProducts.
  unfold_calls. simpl.
  destruct Hkey as [-> | ->].
  - rewrite !lookup_insert_eq, !lookup_delete_eq.
    rewrite !lookup_insert_ne, !lookup_delete_ne by discriminate.
    simpl. unfold ProductsBasic.search_filter. simpl. split.
    + destruct (length _ <? 1)%nat; simpl; destruct (headers_sent _);
        reflexivity.
    + destruct (length _ <? 1)%nat; simpl; destruct (headers_sent _);
        reflexivity.
  - rewrite !lookup_insert_eq, !lookup_delete_eq.
    rewrite !lookup_insert_ne, !lookup_delete_ne by discriminate.
    unfold ProductsBasic.limit_filter, ProductsExplained.limit_filter. simpl.
    split.
    + destruct (length _ <? 1)%nat; simpl; destruct (headers_sent _);
        reflexivity.
    + destruct (ProductsExplained.search_filter _ _) as [found|e];
        [|reflexivity].
      destruct (length _ <? 1)%nat; simpl; destruct (headers_sent _);
        reflexivity.
Qed.

Lemma empty_parameters_ignored_witness :
  let w := fresh_world (request_of "GET" "/api/v1/query?search=" ∅ ∅
                          JS.VUndefined) in
  run ProductsBasic.queryProducts
      (with_query (<["search" := JS.QStr EmptyString]> (query (req w))) w)
  = run ProductsBasic.queryProducts
        (with_query (delete "search" (query (req w))) w).
Proof.
  intros w.
  refine (proj1 (empty_parameters_ignored w "search" _)). left. reflexivity.
Defined.

Lemma prefix_spec (t s : string) :
  String.prefix t s = true <-> exists post, s = t +:+ post.
Proof.
  revert s. induction t as [|c t IH]; intros s.
  - split; [intros _; now exists s | now destruct s].
  - destruct s as [|d s]; simpl.
    + split; [discriminate | intros [post [=]]].
    + destruct (Ascii.ascii_dec c d) as [<- | Hne].
      * rewrite IH. split; intros [post Hpost].
        -- exists post. now rewrite Hpost.
        -- exists post. now injection Hpost.
      * split; [discriminate|]. intros [post [= <- _]]. now destruct Hne.
Qed.

Lemma includes_spec (s t : string) :
  JS.includes s t = true <-> exists pre post, s = pre +:+ t +:+ post.
Proof.
  induction s as [|c s IH].
  - cbn [JS.includes]. rewrite orb_false_r, prefix_spec. split.
    + intros [post Hpost]. now exists EmptyString, post.
    + intros (pre & post & Heq). destruct pre as [|d pre]; [|discriminate].
      now exists post.
  - cbn [JS.includes]. rewrite orb_true_iff, IH, prefix_spec. split.
    + intros [[post Hpost] | (pre & post & Heq)].
      * now exists EmptyString, post.
      * exists (String c pre), post. simpl. now rewrite Heq.
    + intros (pre & post & Heq). destruct pre as [|d pre].
      * left. now exists post.
      * right. injection Heq as _ Heq. now exists pre, post.
Qed.

(** X7: for a non-empty search term the basic variant selects exactly the
    products whose name contains the term as it is written, and the
    explained variant exactly those whose lower-cased name contains the
    lower-cased term. *)
Theorem search_selects_substring_matches (term : string) (l : list product) :
  term <> EmptyString ->
  (forall p,
      In p (ProductsBasic.search_filter (Some (JS.QStr term)) l)
      <-> In p l /\ exists pre post, product_name p = pre +:+ term +:+ post)
  /\ exists found,
       ProductsExplained.search_filter (Some (JS.QStr term)) l = Return found
       /\ forall p,
            In p found
            <-> In p l
                /\ exists pre post,
                     JS.toLowerCase (product_name p)
                     = pre +:+ JS.toLowerCase term +:+ post.
Proof.
  intros Hterm. destruct term as [|c term]; [now destruct Hterm|].
  split.
  - intros p. unfold ProductsBasic.search_filter. simpl.
    rewrite List.filter_In. now rewrite includes_spec.
  - eexists. split; [reflexivity|].
    intros p. rewrite List.filter_In. now rewrite includes_spec.
Qed.

Lemma search_selects_substring_matches_witness :
  In (sample_product 3 "leather sofa")
     (ProductsBasic.search_filter (Some (JS.QStr "sofa")) sample_products)
  <-> In (sample_product 3 "leather sofa") sample_products
      /\ exists pre post,
           product_name (sample_product 3 "leather sofa")
           = pre +:+ "sofa" +:+ post.
Proof.
  refine (proj1 (search_selects_substring_matches "sofa" sample_products _)
                (sample_product 3 "leather sofa")).
  discriminate.
Defined.

(** ** The people controller *)

(** X8: updatePerson never throws, not even without a parsed body, and
    checks its input before it looks the person up: 400 when the id or the
    name is missing or empty, whether or not the person exists; otherwise
    404 when no person has the id, and 200 when one has. *)
Theorem updatePerson_status (w : world) :
  res w = [] ->
  let personId := params (req w) !! "personId" in
  let name := People.optional_name (body (req w)) in
  fst (People.updatePerson w) = Return tt
  /\ (body (req w) = JS.VUndefined ->
      status_of (run People.updatePerson w) = Some 400)
  /\ (People.param_truthy personId = false \/ JS.truthy name = false ->
      status_of (run People.updatePerson w) = Some 400)
  /\ (People.param_truthy personId = true -> JS.truthy name = true ->
      status_of (run People.updatePerson w)
      = Some (match List.find (People.has_id personId) (people w) with
              | Some _ => 200
              | None => 404
              end)).
Proof.
  intros Hres personId name. subst personId name.
  fresh_response w Hres.
  unfold People.updatePerson. unfold_calls. simpl.
  repeat split.
  - destruct (People.param_truthy _), (JS.truthy _); simpl;
      try reflexivity.
    now destruct (List.find _ _).
  - intros ->. simpl. now rewrite orb_true_r.
  - intros [-> | ->]; simpl; [reflexivity | now rewrite orb_true_r].
  - intros -> ->. simpl. now destruct (List.find _ _).
Qed.

Lemma updatePerson_status_witness :
  let w := fresh_world (request_of "PUT" "/api/people/7"
                          {[ "personId" := "7" ]} ∅ JS.VUndefined) in
  fst (People.updatePerson w) = Return tt
  /\ status_of (run People.updatePerson w) = Some 400.
Proof.
  intros w.
  pose proof (updatePerson_status w eq_refl) as [Hret [Hbody _]].
  split; [exact Hret | apply Hbody; reflexivity].
Defined.

Lemma Forall2_map_r {A B : Type} (P : A -> B -> Prop) (f : A -> B) (l : list A) :
  (forall a, P a (f a)) -> Forall2 P l (map f l).
Proof. intros H. induction l; simpl; constructor; auto. Qed.

(** X9: a successful update answers with one record per person, in the
    same order and with the same ids; a record carries the new name when
    its id is the requested one, and the person's own name otherwise. *)
Theorem updatePerson_renames_only (w : world) (personId : string) :
  res w = [] ->
  params (req w) !! "personId" = Some personId ->
  personId <> EmptyString ->
  JS.truthy (People.optional_name (body (req w))) = true ->
  List.find (People.has_id (Some personId)) (people w) <> None ->
  exists items,
    response_of (run People.updatePerson w)
    = Some (200, Data (JS.VObj [("success", JS.VBool true);
                                ("data", JS.VArr items)]))
    /\ length items = length (people w)
    /\ Forall2
         (fun person item =>
            json_get "id" item = JS.VNum (person_id person)
            /\ json_get "name" item
               = if People.has_id (Some personId) person
                 then People.optional_name (body (req w))
                 else JS.VStr (person_name person))
         (people w) items.
Proof.
  intros Hres Hparam Hne Hname Hfound.
  destruct personId as [|c s]; [now destruct Hne|].
  fresh_response w Hres.
  eexists. split; [|split].
  - unfold People.updatePerson. unfold_calls. simpl.
    rewrite Hparam, Hname. simpl.
    destruct (List.find _ _); [reflexivity | now destruct Hfound].
  - now rewrite length_map.
  - apply Forall2_map_r. intros person.
    destruct (People.has_id _ person); split; reflexivity.
Qed.

Lemma updatePerson_renames_only_witness :
  let w := fresh_world (request_of "PUT" "/api/people/2"
                          {[ "personId" := "2" ]} ∅
                          (JS.VObj [("name", JS.VStr "paul")])) in
  exists items,
    response_of (run People.updatePerson w)
    = Some (200, Data (JS.VObj [("success", JS.VBool true);
                                ("data", JS.VArr items)]))
    /\ length items = length (people w).
Proof.
  intros w.
  destruct (updatePerson_renames_only w "2") as (items & Hsent & Hlen & _).
  - reflexivity.
  - vm_compute. reflexivity.
  - discriminate.
  - reflexivity.
  - vm_compute. discriminate.
  - exists items. split; [exact Hsent | exact Hlen].
Defined.

Lemma filter_shorter {A : Type} (f : A -> bool) (l : list A) (a : A) :
  In a l -> f a = false -> (length (List.filter f l) < length l)%nat.
Proof.
  induction l as [|x l IH]; simpl; [intros []|].
  intros [-> | Hin] Ha.
  - rewrite Ha. pose proof (List.filter_length_le f l). lia.
  - specialize (IH Hin Ha). destruct (f x); simpl; lia.
Qed.

(** X10: a successful delete answers with the people whose id is not the
    requested one, in their order: every person with that id is left out,
    every other person is kept, and the list is strictly shorter than the
    people array. *)
Theorem deletePerson_removes_matches (w : world) (personId : string) :
  res w = [] ->
  params (req w) !! "personId" = Some personId ->
  personId <> EmptyString ->
  List.find (People.has_id (Some personId)) (people w) <> None ->
  exists kept,
    response_of (run People.deletePerson w)
    = Some (200, Data (JS.VObj [("success", JS.VBool true);
                                ("data", JS.VArr (map person_json kept))]))
    /\ kept `sublist_of` people w
    /\ (forall p, In p kept
                  <-> In p (people w) /\ People.has_id (Some personId) p = false)
    /\ (length kept < length (people w))%nat.
Proof.
  intros Hres Hparam Hne Hfound.
  destruct personId as [|c s]; [now destruct Hne|].
  fresh_response w Hres.
  exists (List.filter (fun person => negb (People.has_id (Some (String c s)) person))
                      people0).
  repeat split.
  - unfold People.deletePerson. unfold_calls. simpl.
    rewrite Hparam. simpl.
    destruct (List.find _ _); [reflexivity | now destruct Hfound].
  - apply sublist_List_filter.
  - apply List.filter_In in H. now destruct H.
  - apply List.filter_In in H. destruct H as [_ H].
    now apply negb_true_iff in H.
  - intros [Hin Hid]. apply List.filter_In. split; [exact Hin|].
    now rewrite Hid.
  - destruct (List.find _ people0) as [p|] eqn:Hp; [|now destruct Hfound].
    apply List.find_some in Hp. destruct Hp as [Hin Hid].
    apply (filter_shorter _ _ p Hin). now rewrite Hid.
Qed.

Lemma deletePerson_removes_matches_witness :
  let w := fresh_world (request_of "DELETE" "/api/people/2"
                          {[ "personId" := "2" ]} ∅ JS.VUndefined) in
  exists kept,
    response_of (run People.deletePerson w)
    = Some (200, Data (JS.VObj [("success", JS.VBool true);
                                ("data", JS.VArr (map person_json kept))]))
    /\ (length kept < length (people w))%nat.
Proof.
  intros w.
  destruct (deletePerson_removes_matches w "2") as (kept & Hsent & _ & _ & Hlen).
  - reflexivity.
  - vm_compute. reflexivity.
  - discriminate.
  - vm_compute. discriminate.
  - exists kept. split; [exact Hsent | exact Hlen].
Defined.

(** ** The arrays across requests *)

Ltac check_store :=
  let w := fresh "w" in
  intros w; destruct w as [?catalogue ?folk ?r ?tr];
  autounfold with handlers; unfold_calls; simpl;
  split_tests; (split; reflexivity).

Lemma route_handlers_keep_store (err : error)
  (homePage homePageStyle homePageLogo homePageAppJs : string) :
  Forall keeps_store
         (route_handlers err homePage homePageStyle homePageLogo homePageAppJs).
Proof.
  unfold route_handlers.
  repeat (constructor; [check_store|]). constructor.
Qed.

Lemma middleware_keep_store (mw : M unit -> M unit) (next : M unit) :
  In mw middleware -> keeps_store next -> keeps_store (mw next).
Proof.
  intros Hmw Hnext w.
  assert (Hattach : forall v, keeps_store (fun w => next (attach_user v w))).
  { intros v w'. apply (Hnext (attach_user v w')). }
  unfold middleware in Hmw. simpl in Hmw.
  destruct Hmw as [<- | [<- | [<- | [<- | []]]]].
  - apply Hnext.
  - destruct (JS.qtruthy (query (req w) !! "user")) eqn:Hu.
    + rewrite authorize_basic_truthy by exact Hu. apply Hattach.
    + unfold MiddlewareBasic.authorize. unfold_calls. simpl. rewrite Hu.
      simpl. now destruct (headers_sent _).
  - apply Hnext.
  - destruct (JS.qtruthy (query (req w) !! "user")) eqn:Hu.
    + rewrite authorize_explained_truthy by exact Hu. apply Hattach.
    + unfold MiddlewareExplained.authorize. unfold_calls. simpl. rewrite Hu.
      simpl. now destruct (headers_sent _).
Qed.

Lemma pipeline_keeps_store (hs : list (M unit)) (h : M unit) :
  Forall keeps_store hs -> pipeline hs h -> keeps_store h.
Proof.
  intros Hhs. induction 1 as [h Hin | mw h Hmw _ IH].
  - rewrite List.Forall_forall in Hhs. now apply Hhs.
  - now apply middleware_keep_store.
Qed.

(** X11: whatever requests are served, in whatever order, by the handlers
    of the repository with or without middleware in front, the products
    and the people arrays stay as they were loaded, and getPeople goes on
    answering with the same list. *)
Theorem arrays_never_change (err : error)
  (homePage homePageStyle homePageLogo homePageAppJs : string)
  (served : list (M unit * request)) (w : world) :
  Forall (fun hr =>
            pipeline (route_handlers err homePage homePageStyle homePageLogo
                                     homePageAppJs) (fst hr))
         served ->
  products (serve_all served w) = products w
  /\ people (serve_all served w) = people w
  /\ forall r, run People.getPeople (next_request r (serve_all served w))
               = run People.getPeople (next_request r w).
Proof.
  intros Hserved.
  assert (Hstore : products (serve_all served w) = products w
                   /\ people (serve_all served w) = people w).
  { revert w. induction Hserved as [|[h r] served Hh _ IH]; intros w; simpl.
    - split; reflexivity.
    - pose proof (pipeline_keeps_store _ h
                    (route_handlers_keep_store err homePage homePageStyle
                       homePageLogo homePageAppJs) Hh
                    (next_request r w)) as [Hp Hq].
      destruct (IH (serve h r w)) as [IHp IHq].
      unfold serve in *. rewrite IHp, IHq, Hp, Hq. split; reflexivity. }
  destruct Hstore as [Hp Hq]. repeat split; [exact Hp | exact Hq|].
  intros r. unfold People.getPeople, next_request. unfold_calls. simpl.
  now rewrite Hq.
Qed.

Lemma arrays_never_change_witness :
  let served :=
    [ (People.createPersonPostman,
       request_of "POST" "/api/people/postman" ∅ ∅
                  (JS.VObj [("name", JS.VStr "paul")]));
      (People.deletePerson,
       request_of "DELETE" "/api/people/2" {[ "personId" := "2" ]} ∅
                  JS.VUndefined);
      (MiddlewareBasic.logger (MiddlewareBasic.authorize MiddlewareBasic.home),
       request_of "GET" "/?user=john" ∅ {[ "user" := JS.QStr "john" ]}
                  JS.VUndefined) ] in
  let w := fresh_world (request_of "GET" "/" ∅ ∅ JS.VUndefined) in
  people (serve_all served w) = people w.
Proof.
  intros served w.
  refine (proj1 (proj2 (arrays_never_change
                          {| err_status := JS.VUndefined; err_message := JS.VUndefined |}
                          "<html></html>" "body {}" "<svg/>" "void 0"
                          served w _))).
  constructor; [|constructor; [|constructor; [|constructor]]]; simpl.
  - apply pipeline_handler. unfold route_handlers. simpl. tauto.
  - apply pipeline_handler. unfold route_handlers. simpl. tauto.
  - apply pipeline_middleware; [simpl; tauto|].
    apply pipeline_middleware; [simpl; tauto|].
    apply pipeline_handler. unfold route_handlers. simpl. tauto.
Defined.

(** ** The middleware applications *)

(** X12: in both middleware applications, with logger and authorize in front
    of every page, a page is served with 200 exactly to requests whose
    [user] parameter is truthy; every other request gets 401, whatever page
    it asked for. *)
Theorem pages_need_user (w : world) (page : M unit) :
  res w = [] ->
  let authorized := JS.qtruthy (query (req w) !! "user") in
  (In page middleware_basic_pages ->
   status_of (run (MiddlewareBasic.logger (MiddlewareBasic.authorize page)) w)
   = Some (if authorized then 200 else 401))
  /\ (In page middleware_explained_pages ->
      status_of (run (MiddlewareExplained.logger
                        (MiddlewareExplained.authorize page)) w)
      = Some (if authorized then 200 else 401)).
Proof.
  intros Hres authorized. subst authorized. split; intros Hpage.
  - unfold run. rewrite logger_basic_run.
    destruct (JS.qtruthy (query (req w) !! "user")) eqn:Hu.
    + rewrite authorize_basic_truthy by exact Hu.
      fresh_response w Hres. simpl in Hpage.
      destruct Hpage as [<- | [<- | [<- | [<- | []]]]]; reflexivity.
    + rewrite authorize_basic_falsy by assumption.
      unfold respond. simpl. now rewrite Hres.
  - unfold run. rewrite logger_explained_run.
    destruct (JS.qtruthy (query (req w) !! "user")) eqn:Hu.
    + rewrite authorize_explained_truthy by exact Hu.
      fresh_response w Hres. simpl in Hpage.
      destruct Hpage as [<- | [<- | [<- | [<- | []]]]]; reflexivity.
    + rewrite authorize_explained_falsy by assumption.
      unfold respond. simpl. now rewrite Hres.
Qed.

Lemma pages_need_user_witness :
  let w := fresh_world (request_of "GET" "/about?user=" ∅
                          {[ "user" := JS.QStr EmptyString ]} JS.VUndefined) in
  status_of (run (MiddlewareBasic.logger
                    (MiddlewareBasic.authorize MiddlewareBasic.about)) w)
  = Some 401.
Proof.
  intros w.
  refine (proj1 (pages_need_user w MiddlewareBasic.about _) _).
  - reflexivity.
  - simpl. tauto.
Defined.

(** ** The bare [http] servers *)

(** X13: the two [http] servers answer every request with one head, one
    chunk and the end of the response, and match the URL exactly: 200 for
    the listed URLs and 404 for every other one, such as a listed URL
    followed by a query string. *)
Theorem http_servers_match_exactly
  (homePage homePageStyle homePageLogo homePageAppJs : string) (w : world) :
  res w = [] ->
  let u := url (req w) in
  (exists code chunk,
      HttpBasics.server w
      = (Return tt, respond [WriteHead code "text/html"; Write chunk; End] w)
      /\ (code = 200 <-> In u ["/"; "/about"]%string)
      /\ (code = 200 \/ code = 404))
  /\ (exists code contentType chunk,
         HttpApp.server homePage homePageStyle homePageLogo homePageAppJs w
         = (Return tt, respond [WriteHead code contentType; Write chunk; End] w)
         /\ (code = 200
             <-> In u ["/"; "/styles.css"; "/logo.svg"; "/browser-app.js";
                       "/about"]%string)
         /\ (code = 200 \/ code = 404)).
Proof.
  intros Hres u. subst u. fresh_response w Hres.
  unfold HttpBasics.server, HttpApp.server, respond. unfold_calls. simpl.
  split.
  - destruct (String.eqb_spec (url r) "/") as [-> | H1];
      [|destruct (String.eqb_spec (url r) "/about") as [-> | H2]];
      simpl; do 2 eexists; (split; [reflexivity|]); split; auto;
      try (split; [tauto | intros _; reflexivity]).
    split; [discriminate | intros [? | [? | []]]; congruence].
  - destruct (String.eqb_spec (url r) "/") as [-> | H1];
      [|destruct (String.eqb_spec (url r) "/styles.css") as [-> | H2];
        [|destruct (String.eqb_spec (url r) "/logo.svg") as [-> | H3];
          [|destruct (String.eqb_spec (url r) "/browser-app.js") as [-> | H4];
            [|destruct (String.eqb_spec (url r) "/about") as [-> | H5]]]]];
      simpl; do 3 eexists; (split; [reflexivity|]); split; auto;
      try (split; [tauto | intros _; reflexivity]).
    split; [discriminate|].
    intros [? | [? | [? | [? | [? | []]]]]]; congruence.
Qed.

Lemma http_servers_match_exactly_witness :
  let w := fresh_world (request_of "GET" "/about?lang=en" ∅ ∅ JS.VUndefined) in
  status_of (run HttpBasics.server w) = Some 404.
Proof.
  intros w.
  destruct (http_servers_match_exactly "<html></html>" "body {}" "<svg/>"
              "void 0" w eq_refl) as [(code & chunk & Hrun & Hcode & Hor) _].
  unfold run. rewrite Hrun.
  destruct Hor as [-> | ->]; [|reflexivity].
  exfalso. destruct (proj1 Hcode eq_refl) as [H | [H | []]]; discriminate H.
Defined.

(** ** The calculator's command line *)

Lemma parse_from_app (args more : list string)
  (out : gmap string Calculator.arg_value) :
  match more with
  | [] => True
  | m :: _ => Calculator.starts_with_dashes m = true
  end ->
  Calculator.parse_from (args ++ more) out
  = Calculator.parse_from more (Calculator.parse_from args out).
Proof.
  intros Hmore. remember (length args) as n eqn:Hn.
  revert args out Hn.
  induction n as [n IH] using lt_wf_ind. intros args out Hn.
  destruct args as [|a rest]; [reflexivity|].
  simpl in Hn. cbn [app Calculator.parse_from].
  destruct (Calculator.starts_with_dashes a).
  - destruct rest as [|val rest'].
    + simpl. destruct more as [|m more']; [reflexivity|].
      rewrite Hmore. now rewrite andb_false_r.
    + cbn [app]. destruct (_ && _).
      * apply (IH (length rest')); [simpl in Hn; lia | reflexivity].
      * apply (IH (length (val :: rest')) ltac:(lia) (val :: rest')).
        reflexivity.
  - apply (IH (length rest)); [lia | reflexivity].
Qed.

Lemma flag_starts_with_dashes (key : string) :
  Calculator.starts_with_dashes ("--" +:+ key) = true.
Proof.
  unfold Calculator.starts_with_dashes. apply prefix_spec. now exists key.
Qed.

Lemma parse_from_flag (flag : string) (out : gmap string Calculator.arg_value) :
  Calculator.starts_with_dashes flag = true ->
  Calculator.parse_from [flag] out
  = Calculator.assign (Calculator.slice2 flag) Calculator.ATrue out.
Proof. intros Hflag. simpl. now rewrite Hflag. Qed.

Lemma parse_from_flag_value (flag val : string)
  (out : gmap string Calculator.arg_value) :
  Calculator.starts_with_dashes flag = true ->
  Calculator.parse_from [flag; val] out
  = if JS.nonempty val && negb (Calculator.starts_with_dashes val)
    then Calculator.assign (Calculator.slice2 flag) (Calculator.value_of val) out
    else Calculator.parse_from [val]
           (Calculator.assign (Calculator.slice2 flag) Calculator.ATrue out).
Proof. intros Hflag. cbn [Calculator.parse_from]. now rewrite Hflag. Qed.

(** X14: [parseArgs] reads its arguments flag by flag.  A trailing
    [--key value] adds the key with the value, as a number when the value
    is numeric and as its text otherwise; a trailing [--key], alone or
    followed by an empty argument, adds the key with [true]; in each case
    on top of what the arguments before it gave, so a later occurrence of a
    key replaces an earlier one. *)
Theorem parseArgs_trailing_flag (args : list string) (key val : string) :
  JS.nonempty val = true ->
  Calculator.starts_with_dashes val = false ->
  Calculator.parseArgs (args ++ ["--" +:+ key; val])
  = Calculator.assign key (Calculator.value_of val) (Calculator.parseArgs args)
  /\ Calculator.parseArgs (args ++ ["--" +:+ key])
     = Calculator.assign key Calculator.ATrue (Calculator.parseArgs args)
  /\ Calculator.parseArgs (args ++ ["--" +:+ key; EmptyString])
     = Calculator.assign key Calculator.ATrue (Calculator.parseArgs args)
  /\ (key <> "__proto__" ->
      Calculator.parseArgs (args ++ ["--" +:+ key; val]) !! key
      = Some (Calculator.value_of val)).
Proof.
  intros Hval Hflag. unfold Calculator.parseArgs.
  pose proof (flag_starts_with_dashes key) as Hkey.
  assert (Hslice : Calculator.slice2 ("--" +:+ key) = key) by reflexivity.
  assert (H1 : Calculator.parse_from (args ++ ["--" +:+ key; val]) ∅
               = Calculator.assign key (Calculator.value_of val)
                   (Calculator.parse_from args ∅)).
  { rewrite parse_from_app by exact Hkey.
    rewrite parse_from_flag_value by exact Hkey.
    now rewrite Hval, Hflag, Hslice. }
  repeat split.
  - exact H1.
  - rewrite parse_from_app by exact Hkey.
    rewrite parse_from_flag by exact Hkey. now rewrite Hslice.
  - rewrite parse_from_app by exact Hkey.
    rewrite parse_from_flag_value by exact Hkey. rewrite Hslice. reflexivity.
  - intros Hproto. rewrite H1. unfold Calculator.assign.
    destruct (String.eqb_spec key "__proto__"); [contradiction|].
    apply lookup_insert_eq.
Qed.

Lemma parseArgs_trailing_flag_witness :
  Calculator.parseArgs ["--years"; "20"; "--years"; "30"] !! "years"
  = Some (Calculator.value_of "30").
Proof.
  refine (proj2 (proj2 (proj2
            (parseArgs_trailing_flag ["--years"; "20"] "years" "30" _ _))) _).
  - reflexivity.
  - reflexivity.
  - discriminate.
Defined.

(** The loop keeps every property of the object that each assignment it
    can make keeps. *)
Lemma parse_from_invariant (all : list string)
  (I : gmap string Calculator.arg_value -> Prop) :
  (forall a v out,
      In a all -> Calculator.starts_with_dashes a = true ->
      Calculator.well_typed v -> I out ->
      I (Calculator.assign (Calculator.slice2 a) v out)) ->
  forall args out,
    (forall a, In a args -> In a all) -> I out ->
    I (Calculator.parse_from args out).
Proof.
  intros Hstep args. remember (length args) as n eqn:Hn.
  revert args Hn. induction n as [n IH] using lt_wf_ind.
  intros args Hn out Hall Hout.
  destruct args as [|a rest]; [exact Hout|].
  simpl in Hn. cbn [Calculator.parse_from].
  destruct (Calculator.starts_with_dashes a) eqn:Ha.
  - destruct rest as [|val rest'].
    + apply Hstep; simpl; auto. apply Hall. now left.
    + destruct (JS.nonempty val) eqn:Hne,
               (Calculator.starts_with_dashes val) eqn:Hv; simpl.
      * apply (IH (length (val :: rest')) ltac:(lia) (val :: rest') eq_refl).
        -- intros b Hb. apply Hall. now right.
        -- apply Hstep; simpl; auto. apply Hall. now left.
      * apply (IH (length rest') ltac:(simpl in Hn; lia) rest' eq_refl).
        -- intros b Hb. apply Hall. right. now right.
        -- apply Hstep; auto; [apply Hall; now left|].
           unfold Calculator.value_of, Calculator.well_typed.
           destruct (JS.isNaN (JS.Number val)) eqn:Hnan; auto.
      * apply (IH (length (val :: rest')) ltac:(lia) (val :: rest') eq_refl).
        -- intros b Hb. apply Hall. now right.
        -- apply Hstep; simpl; auto. apply Hall. now left.
      * apply (IH (length (val :: rest')) ltac:(lia) (val :: rest') eq_refl).
        -- intros b Hb. apply Hall. now right.
        -- apply Hstep; simpl; auto. apply Hall. now left.
  - apply (IH (length rest) ltac:(lia) rest eq_refl); [|exact Hout].
    intros b Hb. apply Hall. now right.
Qed.

(** X15: every entry of the object [parseArgs] returns comes from a flag:
    its key is the text after the two dashes of an argument that starts
    with them, and is never [__proto__]; its value is [true], a number that
    is not NaN, or a text that is not numeric, not empty and not itself a
    flag.  Arguments without a flag give the empty object. *)
Theorem parseArgs_entries (args : list string) :
  (forall key v,
      Calculator.parseArgs args !! key = Some v ->
      Calculator.well_typed v
      /\ key <> "__proto__"
      /\ exists a, In a args /\ Calculator.starts_with_dashes a = true
                   /\ Calculator.slice2 a = key)
  /\ ((forall a, In a args -> Calculator.starts_with_dashes a = false) ->
      Calculator.parseArgs args = ∅).
Proof.
  assert (Hentries :
            forall key v,
              Calculator.parseArgs args !! key = Some v ->
              Calculator.well_typed v
              /\ key <> "__proto__"
              /\ exists a, In a args /\ Calculator.starts_with_dashes a = true
                           /\ Calculator.slice2 a = key).
  { unfold Calculator.parseArgs.
    apply (parse_from_invariant args
             (fun out => forall key v,
                  out !! key = Some v ->
                  Calculator.well_typed v
                  /\ key <> "__proto__"
                  /\ exists a, In a args
                               /\ Calculator.starts_with_dashes a = true
                               /\ Calculator.slice2 a = key)).
    - intros a v out Ha Hflag Hv Hout key v'. unfold Calculator.assign.
      destruct (String.eqb_spec (Calculator.slice2 a) "__proto__") as [Heq | Hne];
        [apply Hout|].
      destruct (decide (Calculator.slice2 a = key)) as [<- | Hkey].
      + rewrite lookup_insert_eq. intros [= <-].
        repeat split; [exact Hv | exact Hne|]. now exists a.
      + rewrite lookup_insert_ne by exact Hkey. apply Hout.
    - auto.
    - intros key v. rewrite lookup_empty. discriminate. }
  split; [exact Hentries|].
  intros Hnone. apply map_eq. intros key. rewrite lookup_empty.
  destruct (Calculator.parseArgs args !! key) as [v|] eqn:Hv; [|reflexivity].
  destruct (Hentries key v Hv) as (_ & _ & a & Ha & Hflag & _).
  rewrite (Hnone a Ha) in Hflag. discriminate Hflag.
Qed.

Lemma parseArgs_entries_witness :
  Calculator.parseArgs ["40000"; "years"; "-5"] = ∅.
Proof.
  refine (proj2 (parseArgs_entries ["40000"; "years"; "-5"]) _).
  intros a Ha. simpl in Ha.
  destruct Ha as [<- | [<- | [<- | []]]]; reflexivity.
Defined.

(** Three command lines, as the calculator reads them. *)
Example parseArgs_samples :
  Calculator.parseArgs ["--pfWage"; "40000"; "--verbose"; "--annualRate"; "8.25"]
  = <["annualRate" := Calculator.ANum (JS.Number "8.25")]>
      (<["verbose" := Calculator.ATrue]>
         (<["pfWage" := Calculator.ANum (JS.of_Z 40000)]> ∅))
  /\ Calculator.parseArgs ["--openingEPF"; "-5"; "--note"; "abc"]
     = <["note" := Calculator.AStr "abc"]>
         (<["openingEPF" := Calculator.ANum (JS.Number "-5")]> ∅)
  /\ Calculator.parseArgs ["--__proto__"; "1"; "skipped"] = ∅.
Proof.
  repeat split; apply map_eq; intros k; vm_compute; reflexivity.
Qed.

(** ** Bodies, and limits that are not positive *)

(** X16: without a parsed body ([req.body] undefined or null) createPerson,
    createPersonPostman and the login handler throw a TypeError at the
    destructuring and leave the response untouched, where updatePerson,
    which reads the name through optional chaining, answers 400. *)
Theorem body_required_to_create (w : world) (h : M unit) :
  body (req w) = JS.VUndefined \/ body (req w) = JS.VNull ->
  In h [People.createPerson; People.createPersonPostman; Auth.login] ->
  (exists msg, h w = (Throw (TypeError msg), w))
  /\ (res w = [] ->
      fst (People.updatePerson w) = Return tt
      /\ status_of (run People.updatePerson w) = Some 400).
Proof.
  intros Hbody Hh. split.
  - destruct w as [catalogue folk r tr]. simpl in Hbody, Hh.
    destruct Hh as [<- | [<- | [<- | []]]];
      unfold People.createPerson, People.createPersonPostman, Auth.login,
        People.destructure_name; unfold_calls; simpl;
      destruct Hbody as [-> | ->]; simpl; eexists; reflexivity.
  - intros Hres. fresh_response w Hres.
    unfold People.updatePerson. unfold_calls. simpl.
    destruct Hbody as [-> | ->]; simpl; rewrite orb_true_r; split; reflexivity.
Qed.

Lemma body_required_to_create_witness :
  let w := fresh_world (request_of "POST" "/api/people" ∅ ∅ JS.VUndefined) in
  exists msg, People.createPerson w = (Throw (TypeError msg), w).
Proof.
  intros w.
  refine (proj1 (body_required_to_create w People.createPerson _ _)).
  - left. reflexivity.
  - simpl. tauto.
Defined.

(** X17: the explained variant ignores every limit whose number is NaN,
    zero or negative, whatever it is written like ([0], [-0], [abc],
    [-Infinity], a repeated parameter): the handler leaves the log it
    leaves without a limit. *)
Theorem explained_ignores_invalid_limit (w : world) (limit : JS.qvalue) :
  negb (JS.isNaN (JS.Number_q (Some limit)))
  && JS.gt (JS.Number_q (Some limit)) JS.zero = false ->
  let q := query (req w) in
  run ProductsExplained.queryProducts (with_query (<["limit" := limit]> q) w)
  = run ProductsExplained.queryProducts (with_query (delete "limit" q) w).
Proof.
  intros Hguard q. subst q. destruct w as [catalogue folk r tr].
  unfold ProductsExplained.queryProducts. unfold_calls. simpl.
  rewrite lookup_insert_eq, lookup_delete_eq.
  rewrite lookup_insert_ne, lookup_delete_ne by discriminate.
  destruct (ProductsExplained.search_filter _ _) as [found|e]; [|reflexivity].
  rewrite (limit_filter_explained_invalid (Some limit) found Hguard).
  rewrite limit_filter_explained_absent.
  destruct (length found <? 1)%nat; simpl; destruct (headers_sent _);
    reflexivity.
Qed.

Lemma explained_ignores_invalid_limit_witness :
  let w := fresh_world (request_of "GET" "/api/v1/query?limit=0" ∅ ∅
                          JS.VUndefined) in
  run ProductsExplained.queryProducts
      (with_query (<["limit" := JS.QStr "0"]> (query (req w))) w)
  = run ProductsExplained.queryProducts
        (with_query (delete "limit" (query (req w))) w).
Proof.
  intros w. apply explained_ignores_invalid_limit. vm_compute. reflexivity.
Defined.

(** A number that truncates to a negative integer is a negative finite
    number. *)
Lemma truncates_negative (n : JS.number) (z : Z) :
  JS.ToIntegerOrInfinity n = JS.Integer z -> z < 0 ->
  JS.gt n JS.zero = false.
Proof.
  destruct n as [s|s| |s m e]; simpl; try reflexivity.
  - destruct s; discriminate.
  - intros [= <-] Hz. destruct s; [reflexivity|].
    exfalso. destruct (Z.leb_spec 0 e) as [He | He].
    + assert (0 <= 2 ^ e) by (apply Z.pow_nonneg; lia). nia.
    + assert (0 < 2 ^ (- e)) by (apply Z.pow_pos_nonneg; lia).
      assert (0 <= Z.pos m / 2 ^ (- e)) by (apply Z.div_pos; lia).
      lia.
Qed.

Lemma limit_truthy_of_integer (limit : option JS.qvalue) (z : Z) :
  JS.ToIntegerOrInfinity (JS.Number_q limit) = JS.Integer z -> z <> 0 ->
  JS.qtruthy limit = true.
Proof.
  destruct limit as [[[|c s]|a]|]; simpl; try reflexivity;
    intros [= <-] Hz; now destruct Hz.
Qed.

(** X18: the basic variant takes a negative limit as a count from the end:
    a limit whose number truncates to [-k] drops the last [k] products of
    the list (all of them when there are no more than [k]), where the
    explained variant leaves the list as it is. *)
Theorem negative_limit_drops_last (limit : option JS.qvalue) (k : nat)
  (l : list product) :
  (0 < k)%nat ->
  JS.ToIntegerOrInfinity (JS.Number_q limit) = JS.Integer (- Z.of_nat k) ->
  ProductsBasic.limit_filter limit l = firstn (length l - k) l
  /\ ProductsExplained.limit_filter limit l = l.
Proof.
  intros Hk Hint.
  pose proof (limit_truthy_of_integer limit _ Hint ltac:(lia)) as Htruthy.
  pose proof (truncates_negative _ _ Hint ltac:(lia)) as Hgt.
  split.
  - unfold ProductsBasic.limit_filter. rewrite Htruthy.
    unfold JS.slice0. rewrite Hint.
    destruct (Z.ltb_spec (- Z.of_nat k) 0); [|lia].
    f_equal. lia.
  - apply limit_filter_explained_invalid. rewrite Hgt. apply andb_false_r.
Qed.

Lemma negative_limit_drops_last_witness :
  ProductsBasic.limit_filter (Some (JS.QStr "-2")) sample_products
  = firstn (length sample_products - 2) sample_products.
Proof.
  refine (proj1 (negative_limit_drops_last (Some (JS.QStr "-2")) 2
                   sample_products _ _)).
  - lia.
  - vm_compute. reflexivity.
Defined.

(** ** The error handler and the route parameters, on samples *)

(** The error handler of the explained middleware application: the status
    and the message of the error when it has them, 500 and the default
    message otherwise; a status that [res.status] refuses throws before
    anything is sent. *)
Example errorHandler_samples :
  let w := fresh_world (request_of "GET" "/" ∅ ∅ JS.VUndefined) in
  let handle status message :=
    MiddlewareExplained.errorHandler
      {| err_status := status; err_message := message |} w in
  response_of (res (snd (handle (JS.VNum (JS.of_Z 404)) (JS.VStr "Not here"))))
  = Some (404, Data (JS.VObj [("error", JS.VStr "Not here")]))
  /\ response_of (res (snd (handle JS.VUndefined JS.VUndefined)))
     = Some (500, Data (JS.VObj [("error", JS.VStr "Internal server error")]))
  /\ response_of (res (snd (handle (JS.VNum (JS.of_Z 0)) (JS.VStr EmptyString))))
     = Some (500, Data (JS.VObj [("error", JS.VStr "Internal server error")]))
  /\ handle (JS.VNum (JS.of_Z 1000)) JS.VUndefined
     = (Throw (RangeError "Invalid status code"), w)
  /\ handle (JS.VStr "404") JS.VUndefined
     = (Throw (TypeError "Invalid status code"), w)
  /\ handle (JS.VNum (JS.Number "404.5")) JS.VUndefined
     = (Throw (TypeError "Invalid status code"), w).
Proof. vm_compute. repeat split; reflexivity. Qed.

(** The parameters of the review route are echoed in the order of the
    route. *)
Example getReview_sample :
  let w := fresh_world
             (request_of "GET" "/api/products/5/userPreferences/10/reviews/3"
                (<["reviewId" := "3"]>
                   (<["userPreferenceId" := "10"]> {[ "productId" := "5" ]}))
                ∅ JS.VUndefined) in
  response_of (run ProductsExplained.getReview w)
  = Some (200,
          Data (JS.VObj
                  [("message", JS.VStr "Successfully processed all your route params");
                   ("params",
                    JS.VObj [("productId", JS.VStr "5");
                             ("userPreferenceId", JS.VStr "10");
                             ("reviewId", JS.VStr "3")]);
                   ("note", JS.VStr "In real app, these would be validated and used to fetch data")])).
Proof. vm_compute. reflexivity. Qed.
